(** * StreamKeeper-Node-Backend: the TMDb proxy, its entity models and handlers

    A shallow embedding of the JavaScript sources:
    - [models/Media.js], [models/Movie.js], [models/TVShow.js],
      [models/Person.js], [models/Review.js]  (module [Models]);
    - [helpers/tmdbHelper.js]                  (module [TmdbHelper]);
    - [controller/tmdbController.js], [controller/movieController.js],
      [controller/tvShowController.js], [controller/personController.js]
      (one module each) and the [/validate] route of the entry script
      (module [App]).

    JavaScript values are the JSON values plus [undefined]; objects keep
    their properties in enumeration order; an exception is the [Throw] case of
    [result]; the outbound HTTP client is an oracle of the [world] and every
    call to it is appended to a log. *)

From Stdlib Require Import Ascii String SpecFloat.
From stdpp Require Import base option list strings.

Local Open Scope string_scope.
Local Open Scope list_scope.
Set Warnings "-register-all".

(** ** JavaScript values *)
Module JS.

(** A number is an IEEE-754 double, as [spec_float]. *)
Inductive value : Type :=
  | VUndef
  | VNull
  | VBool (b : bool)
  | VNum (n : spec_float)
  | VStr (s : string)
  | VArr (xs : list value)
  | VObj (props : list (string * value)).

(** An ordinary object: its own properties in the order the object
    enumerates them (array indices first, ascending, then the other names
    in insertion order). *)
Definition obj : Type := list (string * value).

Inductive exn : Type :=
  | TypeError (msg : string)
  | URIError (msg : string)
  | AxiosError (msg : string).

Inductive result (A : Type) : Type :=
  | Ok (a : A)
  | Throw (e : exn).
Arguments Ok {A} a.
Arguments Throw {A} e.

#[global] Instance result_ret : MRet result := fun A a => Ok a.
#[global] Instance result_bind : MBind result := fun A B f m =>
  match m with
  | Ok a => f a
  | Throw e => Throw e
  end.
#[global] Instance result_fmap : FMap result := fun A B f m =>
  match m with
  | Ok a => Ok (f a)
  | Throw e => Throw e
  end.

(** The literal [0]. *)
Definition zero : value := VNum (S754_zero false).

(** ToBoolean. *)
Definition truthy (v : value) : bool :=
  match v with
  | VUndef | VNull => false
  | VBool b => b
  | VNum (S754_zero _) | VNum S754_nan => false
  | VNum _ => true
  | VStr s => negb (String.eqb s "")
  | VArr _ | VObj _ => true
  end.

(** [a || b], for a right operand without effects. *)
Definition logical_or (a b : value) : value := if truthy a then a else b.

(** [o[k]] on own properties; [undefined] when there is none. *)
Fixpoint obj_get (o : obj) (k : string) : value :=
  match o with
  | [] => VUndef
  | (k', v) :: o' => if String.eqb k' k then v else obj_get o' k
  end.

(** The value of a decimal digit. *)
Definition digit_value (c : ascii) : option N :=
  let n := N_of_ascii c in
  if ((48 <=? n) && (n <=? 57))%N then Some (n - 48)%N else None.

(** The number a string of decimal digits denotes, after [acc]. *)
Fixpoint decimal (s : string) (acc : N) : option N :=
  match s with
  | EmptyString => Some acc
  | String c s' =>
      match digit_value c with
      | Some d => decimal s' (10 * acc + d)%N
      | None => None
      end
  end.

(** A property name is an array index when it is the canonical decimal
    form of an integer from 0 to 2^32 - 2 (["7"], not ["07"]): these are
    the names an object enumerates first, in ascending order. *)
Definition array_index (k : string) : option N :=
  match k with
  | EmptyString => None
  | String c s' =>
      if Ascii.eqb c "0"%char then
        if String.eqb s' "" then Some 0%N else None
      else
        match decimal k 0 with
        | Some n => if (n <=? 4294967294)%N then Some n else None
        | None => None
        end
  end.

(** [k in o], for own properties. *)
Fixpoint obj_has (o : obj) (k : string) : bool :=
  match o with
  | [] => false
  | (k', _) :: o' => String.eqb k' k || obj_has o' k
  end.

(** Assignment to an existing property: it keeps its place. *)
Fixpoint obj_update (o : obj) (k : string) (v : value) : obj :=
  match o with
  | [] => []
  | (k', v') :: o' =>
      if String.eqb k' k then (k', v) :: o' else (k', v') :: obj_update o' k v
  end.

(** A new property whose name is the array index [i]: it goes among the
    array indices, in ascending order, before every other name. *)
Fixpoint obj_add_index (o : obj) (i : N) (k : string) (v : value) : obj :=
  match o with
  | [] => [(k, v)]
  | (k', v') :: o' =>
      match array_index k' with
      | Some j => if (j <? i)%N then (k', v') :: obj_add_index o' i k v else (k, v) :: o
      | None => (k, v) :: o
      end
  end.

(** [o[k] = v]: an existing property keeps its place; a new one goes last,
    unless its name is an array index. *)
Definition obj_set (o : obj) (k : string) (v : value) : obj :=
  if obj_has o k then obj_update o k v
  else
    match array_index k with
    | Some i => obj_add_index o i k v
    | None => o ++ [(k, v)]
    end.

(** [Object.keys(o)]. *)
Definition keys (o : obj) : list string := o.*1.

(** [data.k].  Reading a property of [undefined] or [null] throws; on a
    primitive or an array the names this program reads ([id], [results],
    [rating], ...; never [length] or an index) are not defined, neither
    on the value nor on its prototype. *)
Definition get (data : value) (k : string) : result value :=
  match data with
  | VUndef =>
      Throw (TypeError ("Cannot read properties of undefined (reading '" +:+ k +:+ "')"))
  | VNull =>
      Throw (TypeError ("Cannot read properties of null (reading '" +:+ k +:+ "')"))
  | VObj o => Ok (obj_get o k)
  | VBool _ | VNum _ | VStr _ | VArr _ => Ok VUndef
  end.

(** [xs.map(f)] for a callback that may throw: elements are visited in
    index order and the first exception aborts the whole call. *)
Fixpoint map_elements (f : value -> result value) (xs : list value)
  : result (list value) :=
  match xs with
  | [] => Ok []
  | x :: xs' =>
      y ← f x;
      ys ← map_elements f xs';
      mret (y :: ys)
  end.

(** [arr.map(f)] where [arr] was read from parsed JSON: only an array has
    a [map] method. *)
Definition array_map (f : value -> result value) (arr : value) : result value :=
  match arr with
  | VArr xs => VArr <$> map_elements f xs
  | VUndef => Throw (TypeError "Cannot read properties of undefined (reading 'map')")
  | VNull => Throw (TypeError "Cannot read properties of null (reading 'map')")
  | VBool _ | VNum _ | VStr _ | VObj _ => Throw (TypeError "map is not a function")
  end.

(** [new C(data)]: the constructor body runs on a fresh empty object. *)
Definition new (C : value -> obj -> result obj) (data : value) : result value :=
  VObj <$> C data [].

End JS.
Import JS.

(** ** models/*.js *)
Module Models.

(** models/Media.js *)
Definition Media (data : value) (this : obj) : result obj :=
  id ← get data "id";
  let this := obj_set this "id" id in
  media_type ← get data "media_type";
  let this := obj_set this "mediaType" (logical_or media_type (VStr "unknown")) in
  popularity ← get data "popularity";
  let this := obj_set this "popularity" popularity in
  overview ← get data "overview";
  let this := obj_set this "overview" overview in
  poster_path ← get data "poster_path";
  let this := obj_set this "posterPath" poster_path in
  backdrop_path ← get data "backdrop_path";
  let this := obj_set this "backdropPath" backdrop_path in
  mret this.

(** models/Movie.js *)
Definition Movie (data : value) (this : obj) : result obj :=
  this ← Media data this;
  let this := obj_set this "mediaType" (VStr "Movie") in
  title ← get data "title";
  let this := obj_set this "title" title in
  original_title ← get data "original_title";
  let this := obj_set this "originalTitle" original_title in
  release_date ← get data "release_date";
  let this := obj_set this "releaseDate" release_date in
  genre_ids ← get data "genre_ids";
  let this := obj_set this "genreIds" genre_ids in
  vote_average ← get data "vote_average";
  let this := obj_set this "voteAverage" vote_average in
  vote_count ← get data "vote_count";
  let this := obj_set this "voteCount" vote_count in
  mret this.

(** models/TVShow.js *)
Definition TVShow (data : value) (this : obj) : result obj :=
  this ← Media data this;
  let this := obj_set this "mediaType" (VStr "TVShow") in
  name ← get data "name";
  let this := obj_set this "name" name in
  original_name ← get data "original_name";
  let this := obj_set this "originalName" original_name in
  first_air_date ← get data "first_air_date";
  let this := obj_set this "firstAirDate" first_air_date in
  genre_ids ← get data "genre_ids";
  let this := obj_set this "genreIds" genre_ids in
  vote_average ← get data "vote_average";
  let this := obj_set this "voteAverage" vote_average in
  vote_count ← get data "vote_count";
  let this := obj_set this "voteCount" vote_count in
  mret this.

(** models/Person.js *)
Definition Person (data : value) (this : obj) : result obj :=
  this ← Media data this;
  let this := obj_set this "mediaType" (VStr "Person") in
  name ← get data "name";
  let this := obj_set this "name" name in
  known_for ← get data "known_for";
  let this := obj_set this "knownFor" known_for in
  gender ← get data "gender";
  let this := obj_set this "gender" gender in
  known_for_department ← get data "known_for_department";
  let this := obj_set this "knownForDepartment" known_for_department in
  mret this.

(** models/Review.js *)
Definition Review (data : value) (this : obj) : result obj :=
  author ← get data "author";
  let this := obj_set this "author" author in
  content ← get data "content";
  let this := obj_set this "content" content in
  created_at ← get data "created_at";
  let this := obj_set this "created" created_at in
  updated_at ← get data "updated_at";
  let this := obj_set this "updated" updated_at in
  author_details ← get data "author_details";
  rating ← get author_details "rating";
  let this := obj_set this "rating" (logical_or rating zero) in
  mret this.

End Models.
Import Models.

(** ** The process environment, the HTTP client and the host functions *)
Module Host.

(** One outbound request: [axios.get(url, { params })]. *)
Record call : Type := Call { url : string; params : obj }.

(** What a request handler finds around it.  [axios_get] is the upstream
    service seen through axios: the parsed body of a 2xx answer, or the
    rejection (transport error, non-2xx status, ...).  [TMDB_BASE_URL]
    is set: the helper does not load without it.  The last three are
    built-ins of the JavaScript host whose results no property below
    depends on. *)
Record world : Type := World {
  TMDB_API_KEY : option string;
  TMDB_BASE_URL : string;
  axios_get : string -> obj -> result value;
  encodeURIComponent : string -> result string;
  Number : string -> spec_float;
  Number_toString : spec_float -> string
}.

(** [process.env.X]: a string, or [undefined] when unset. *)
Definition env (x : option string) : value :=
  match x with
  | Some s => VStr s
  | None => VUndef
  end.

(** An [async] computation: it reads the world, appends to the log of
    upstream calls, and returns or throws. *)
Definition M (A : Type) : Type := world -> list call -> result A * list call.

#[global] Instance M_ret : MRet M := fun A a _ log => (Ok a, log).
#[global] Instance M_bind : MBind M := fun A B f m w log =>
  match m w log with
  | (Ok a, log') => f a w log'
  | (Throw e, log') => (Throw e, log')
  end.

Definition lift {A : Type} (r : result A) : M A := fun _ log => (r, log).
Definition throw {A : Type} (e : exn) : M A := fun _ log => (Throw e, log).
Definition ask : M world := fun w log => (Ok w, log).

(** [try { body } catch (error) { handler }] *)
Definition try_catch {A : Type} (body : M A) (handler : exn -> M A) : M A :=
  fun w log =>
    match body w log with
    | (Ok a, log') => (Ok a, log')
    | (Throw error, log') => handler error w log'
    end.

(** [await axios.get(url, { params })], then [response.data]. *)
Definition axios_get_data (url : string) (params : obj) : M value :=
  fun w log => (axios_get w url params, log ++ [Call url params]).

(** [s.startsWith('/')] *)
Definition startsWith_slash (s : string) : bool :=
  match s with
  | String c _ => Ascii.eqb c "/"%char
  | EmptyString => false
  end.

(** [s.endsWith('/')] *)
Fixpoint endsWith_slash (s : string) : bool :=
  match s with
  | EmptyString => false
  | String c EmptyString => Ascii.eqb c "/"%char
  | String _ s' => endsWith_slash s'
  end.

(** [s.slice(0, -1)] *)
Fixpoint slice_0_m1 (s : string) : string :=
  match s with
  | EmptyString => EmptyString
  | String _ EmptyString => EmptyString
  | String c s' => String c (slice_0_m1 s')
  end.

(** [{ ...init, ...params }]: the own properties of [params] are set on
    [init] one after the other. *)
Definition spread (init params : obj) : obj :=
  fold_left (fun o kv => obj_set o kv.1 kv.2) params init.

(** ToString, as a template literal and [encodeURIComponent] apply it.
    An array is joined with commas ([undefined] and [null] elements give
    the empty string).  An object goes through [toString], then
    [valueOf]: with no own [toString] the inherited one answers
    ["[object Object]"]; an own [toString] is data here, never a function,
    so it is skipped, [valueOf] (inherited, or own and not callable) yields
    no primitive, and the conversion throws. *)
Fixpoint to_string (w : world) (v : value) : result string :=
  match v with
  | VUndef => Ok "undefined"
  | VNull => Ok "null"
  | VBool true => Ok "true"
  | VBool false => Ok "false"
  | VNum n => Ok (Number_toString w n)
  | VStr s => Ok s
  | VArr xs =>
      String.concat "," <$>
        (fix join (xs : list value) : result (list string) :=
           match xs with
           | [] => Ok []
           | x :: xs' =>
               s ← match x with
                   | VUndef | VNull => Ok ""
                   | _ => to_string w x
                   end;
               ss ← join xs';
               mret (s :: ss)
           end) xs
  | VObj o =>
      if obj_has o "toString"
      then Throw (TypeError "Cannot convert object to primitive value")
      else Ok "[object Object]"
  end.

End Host.
Import Host.

(** ** helpers/tmdbHelper.js *)
Module TmdbHelper.

Definition tmdbApiKey (w : world) : value := env (TMDB_API_KEY w).

Definition tmdbBaseUrl (w : world) : string :=
  if endsWith_slash (TMDB_BASE_URL w) then slice_0_m1 (TMDB_BASE_URL w)
  else TMDB_BASE_URL w.

(** [endpoint.startsWith('/') ? endpoint : `/${endpoint}`] *)
Definition normalized_endpoint (endpoint : string) : string :=
  if startsWith_slash endpoint then endpoint else "/" +:+ endpoint.

(** The two [console.log] lines and the [console.error] of the catch
    block write to the terminal only and are left out. *)
Definition fetchFromTmdb (endpoint : string) (params : obj) : M value :=
  w ← ask;
  let url := tmdbBaseUrl w +:+ normalized_endpoint endpoint in
  let fullParams := spread [("api_key", tmdbApiKey w)] params in
  try_catch
    (data ← axios_get_data url fullParams;
     mret data)
    (fun error => throw error).

End TmdbHelper.
Import TmdbHelper.

(** ** Express: requests and responses *)
Module Express.

(** [req.params] holds at most one path parameter in every route of this
    program ([movie_id], [series_id] or [id]); [req.query.query] is
    [undefined], a string, or what the query-string parser builds from
    repeated or bracketed keys. *)
Record request : Type := Request { path_id : string; query : value }.

Inductive body : Type :=
  | Json (v : value)
  | Text (s : string).

Record response : Type := Response { status : nat; payload : body }.

(** [res.json(v)] *)
Definition res_json (v : value) : M response := mret (Response 200 (Json v)).
(** [res.status(n).json(v)] *)
Definition res_status_json (n : nat) (v : value) : M response := mret (Response n (Json v)).
(** [res.status(n).send(s)] *)
Definition res_status_send (n : nat) (s : string) : M response := mret (Response n (Text s)).

(** [{ error: msg }] and [{ message: msg }] *)
Definition error_obj (msg : string) : value := VObj [("error", VStr msg)].
Definition message_obj (msg : string) : value := VObj [("message", VStr msg)].

Definition handler : Type := request -> M response.

End Express.
Import Express.

(** ** controller/tmdbController.js *)
Module TmdbController.

(** Registered twice in the source, with the same body; the first
    registration answers. *)
Definition health : handler := fun req =>
  res_status_json 200 (message_obj "TMDb API is running").

Definition auth_validate : handler := fun req =>
  try_catch
    (_ ← fetchFromTmdb "/authentication/token/new" [];
     res_status_json 200 (message_obj "API Key is valid"))
    (fun error => res_status_json 401 (error_obj "Invalid API Key")).

Definition search_collection : handler := fun req =>
  let query := query req in
  try_catch
    (data ← fetchFromTmdb "/search/collection" [("query", query)];
     res_json data)
    (fun error => res_status_json 500 (error_obj "Failed to fetch collections")).

Definition search_company : handler := fun req =>
  let query := query req in
  try_catch
    (data ← fetchFromTmdb "/search/company" [("query", query)];
     res_json data)
    (fun error => res_status_json 500 (error_obj "Failed to fetch companies")).

(** [value === 'literal'] *)
Definition is_str (v : value) (s : string) : bool :=
  match v with
  | VStr s' => String.eqb s' s
  | _ => false
  end.

(** The callback of [data.results.map] in [/search/multi]: a [switch] on
    [item.media_type]. *)
Definition multi_item (item : value) : result value :=
  media_type ← get item "media_type";
  if is_str media_type "movie" then new Movie item
  else if is_str media_type "tv" then new TVShow item
  else if is_str media_type "person" then new Person item
  else mret item.

Definition search_multi : handler := fun req =>
  let query := query req in
  try_catch
    (data ← fetchFromTmdb "/search/multi" [("query", query)];
     results ← lift (get data "results");
     searchResults ← lift (array_map multi_item results);
     res_json (VObj [("searchResults", searchResults)]))
    (fun error => res_status_json 500 (error_obj "Failed to fetch multi-search results")).

Definition search_keyword : handler := fun req =>
  let query := query req in
  try_catch
    (data ← fetchFromTmdb "/search/keyword" [("query", query)];
     res_json data)
    (fun error => res_status_json 500 (error_obj "Failed to fetch keywords")).

End TmdbController.

(** ** controller/movieController.js *)
Module MovieController.

Definition health : handler := fun req =>
  res_status_json 200 (message_obj "Movie API is running").

Definition images : handler := fun req =>
  try_catch
    (data ← fetchFromTmdb ("/movie/" +:+ path_id req +:+ "/images") [];
     res_json data)
    (fun error => res_status_json 500 (error_obj "Failed to fetch movie images")).

Definition credits : handler := fun req =>
  try_catch
    (data ← fetchFromTmdb ("/movie/" +:+ path_id req +:+ "/credits") [];
     cast ← lift (get data "cast");
     cast ← lift (array_map (new Person) cast);
     crew ← lift (get data "crew");
     crew ← lift (array_map (new Person) crew);
     res_json (VObj [("cast", cast); ("crew", crew)]))
    (fun error => res_status_json 500 (error_obj "Failed to fetch movie credits")).

Definition external_ids : handler := fun req =>
  try_catch
    (data ← fetchFromTmdb ("/movie/" +:+ path_id req +:+ "/external_ids") [];
     res_json data)
    (fun error => res_status_json 500 (error_obj "Failed to fetch movie external IDs")).

Definition recommendations : handler := fun req =>
  try_catch
    (data ← fetchFromTmdb ("/movie/" +:+ path_id req +:+ "/recommendations") [];
     results ← lift (get data "results");
     movies ← lift (array_map (new Movie) results);
     res_json movies)
    (fun error => res_status_json 500 (error_obj "Failed to fetch movie recommendations")).

Definition reviews : handler := fun req =>
  try_catch
    (data ← fetchFromTmdb ("/movie/" +:+ path_id req +:+ "/reviews") [];
     results ← lift (get data "results");
     reviews ← lift (array_map (new Review) results);
     res_json reviews)
    (fun error => res_status_json 500 (error_obj "Failed to fetch movie reviews")).

Definition similar : handler := fun req =>
  try_catch
    (data ← fetchFromTmdb ("/movie/" +:+ path_id req +:+ "/similar") [];
     results ← lift (get data "results");
     movies ← lift (array_map (new Movie) results);
     res_json movies)
    (fun error => res_status_json 500 (error_obj "Failed to fetch similar movies")).

Definition videos : handler := fun req =>
  try_catch
    (data ← fetchFromTmdb ("/movie/" +:+ path_id req +:+ "/videos") [];
     results ← lift (get data "results");
     res_json results)
    (fun error => res_status_json 500 (error_obj "Failed to fetch movie videos")).

Definition watch_providers : handler := fun req =>
  try_catch
    (data ← fetchFromTmdb ("/movie/" +:+ path_id req +:+ "/watch/providers") [];
     results ← lift (get data "results");
     res_json results)
    (fun error => res_status_json 500 (error_obj "Failed to fetch movie watch providers")).

Definition search : handler := fun req =>
  let query := query req in
  if negb (truthy query) then
    res_status_json 400 (error_obj "Query parameter is required")
  else
    try_catch
      (data ← fetchFromTmdb "/search/movie" [("query", query)];
       results ← lift (get data "results");
       movies ← lift (array_map (new Movie) results);
       res_json movies)
      (fun error => res_status_json 500 (error_obj "Failed to search movies")).

Definition popular : handler := fun req =>
  try_catch
    (data ← fetchFromTmdb "/movie/popular" [];
     results ← lift (get data "results");
     movies ← lift (array_map (new Movie) results);
     res_json movies)
    (fun error => res_status_json 500 (error_obj "Failed to fetch popular movies")).

Definition now_playing : handler := fun req =>
  try_catch
    (data ← fetchFromTmdb "/movie/now_playing" [];
     results ← lift (get data "results");
     movies ← lift (array_map (new Movie) results);
     res_json movies)
    (fun error => res_status_json 500 (error_obj "Failed to fetch now playing movies")).

Definition top_rated : handler := fun req =>
  try_catch
    (data ← fetchFromTmdb "/movie/top_rated" [];
     results ← lift (get data "results");
     movies ← lift (array_map (new Movie) results);
     res_json movies)
    (fun error => res_status_json 500 (error_obj "Failed to fetch top-rated movies")).

Definition upcoming : handler := fun req =>
  try_catch
    (data ← fetchFromTmdb "/movie/upcoming" [];
     results ← lift (get data "results");
     movies ← lift (array_map (new Movie) results);
     res_json movies)
    (fun error => res_status_json 500 (error_obj "Failed to fetch upcoming movies")).

(** [/:movie_id(\\d+)]: the route pattern admits digits only. *)
Definition details : handler := fun req =>
  w ← ask;
  let movieId := Number w (path_id req) in
  try_catch
    (data ← fetchFromTmdb ("/movie/" +:+ Number_toString w movieId) [];
     movie ← lift (new Movie data);
     res_json movie)
    (fun error => res_status_json 500 (error_obj "Failed to fetch movie details")).

End MovieController.

(** ** controller/tvShowController.js *)
Module TvShowController.

Definition health : handler := fun req =>
  res_status_json 200 (message_obj "TV Show API is running").

Definition popular : handler := fun req =>
  try_catch
    (data ← fetchFromTmdb "/tv/popular" [];
     results ← lift (get data "results");
     shows ← lift (array_map (new TVShow) results);
     res_json shows)
    (fun error => res_status_json 500 (error_obj "Failed to fetch popular TV shows")).

Definition latest : handler := fun req =>
  try_catch
    (data ← fetchFromTmdb "/tv/latest" [];
     show ← lift (new TVShow data);
     res_json show)
    (fun error => res_status_json 500 (error_obj "Failed to fetch latest TV show")).

Definition airing_today : handler := fun req =>
  try_catch
    (data ← fetchFromTmdb "/tv/airing_today" [];
     results ← lift (get data "results");
     shows ← lift (array_map (new TVShow) results);
     res_json shows)
    (fun error => res_status_json 500 (error_obj "Failed to fetch airing today TV shows")).

Definition on_the_air : handler := fun req =>
  try_catch
    (data ← fetchFromTmdb "/tv/on_the_air" [];
     results ← lift (get data "results");
     shows ← lift (array_map (new TVShow) results);
     res_json shows)
    (fun error => res_status_json 500 (error_obj "Failed to fetch TV shows on the air")).

Definition top_rated : handler := fun req =>
  try_catch
    (data ← fetchFromTmdb "/tv/top_rated" [];
     results ← lift (get data "results");
     shows ← lift (array_map (new TVShow) results);
     res_json shows)
    (fun error => res_status_json 500 (error_obj "Failed to fetch top-rated TV shows")).

Definition search_tv : handler := fun req =>
  let query := query req in
  if negb (truthy query) then
    res_status_json 400 (error_obj "Query parameter is required")
  else
    try_catch
      (w ← ask;
       text ← lift (to_string w query);
       encoded ← lift (encodeURIComponent w text);
       data ← fetchFromTmdb ("/search/tv?query=" +:+ encoded) [];
       results ← lift (get data "results");
       shows ← lift (array_map (new TVShow) results);
       res_json shows)
      (fun error => res_status_json 500 (error_obj "Failed to search TV shows")).

(** [/^\d+$/.test(s)] *)
Definition digit (c : ascii) : bool :=
  (48 <=? nat_of_ascii c)%nat && (nat_of_ascii c <=? 57)%nat.

Fixpoint all_digits (s : string) : bool :=
  match s with
  | EmptyString => true
  | String c s' => digit c && all_digits s'
  end.

Definition digits_only (s : string) : bool :=
  negb (String.eqb s "") && all_digits s.

(** The middleware in front of every [/:series_id...] route. *)
Definition validateSeriesId (req : request) (next : M response) : M response :=
  let series_id := path_id req in
  if negb (digits_only series_id) then
    res_status_json 400 (error_obj "Invalid series_id format. It must be a number.")
  else next.

Definition details : handler := fun req =>
  validateSeriesId req (
  let series_id := path_id req in
  try_catch
    (data ← fetchFromTmdb ("/tv/" +:+ series_id) [];
     show ← lift (new TVShow data);
     res_json show)
    (fun error =>
       res_status_json 500 (error_obj ("Failed to fetch TV show with id " +:+ series_id)))).

Definition videos : handler := fun req =>
  validateSeriesId req (
  let series_id := path_id req in
  try_catch
    (data ← fetchFromTmdb ("/tv/" +:+ series_id +:+ "/videos") [];
     results ← lift (get data "results");
     res_json results)
    (fun error =>
       res_status_json 500
         (error_obj ("Failed to fetch videos for TV show with id " +:+ series_id)))).

Definition watch_providers : handler := fun req =>
  validateSeriesId req (
  let series_id := path_id req in
  try_catch
    (data ← fetchFromTmdb ("/tv/" +:+ series_id +:+ "/watch/providers") [];
     results ← lift (get data "results");
     res_json results)
    (fun error =>
       res_status_json 500
         (error_obj ("Failed to fetch watch providers for TV show with id " +:+ series_id)))).

Definition images : handler := fun req =>
  validateSeriesId req (
  let series_id := path_id req in
  try_catch
    (data ← fetchFromTmdb ("/tv/" +:+ series_id +:+ "/images") [];
     backdrops ← lift (get data "backdrops");
     res_json backdrops)
    (fun error =>
       res_status_json 500
         (error_obj ("Failed to fetch images for TV show with id " +:+ series_id)))).

Definition credits : handler := fun req =>
  validateSeriesId req (
  let series_id := path_id req in
  try_catch
    (data ← fetchFromTmdb ("/tv/" +:+ series_id +:+ "/credits") [];
     cast ← lift (get data "cast");
     cast ← lift (array_map (new Person) cast);
     crew ← lift (get data "crew");
     crew ← lift (array_map (new Person) crew);
     res_json (VObj [("cast", cast); ("crew", crew)]))
    (fun error =>
       res_status_json 500
         (error_obj ("Failed to fetch credits for TV show with id " +:+ series_id)))).

Definition reviews : handler := fun req =>
  validateSeriesId req (
  let series_id := path_id req in
  try_catch
    (data ← fetchFromTmdb ("/tv/" +:+ series_id +:+ "/reviews") [];
     results ← lift (get data "results");
     reviews ← lift (array_map (new Review) results);
     res_json reviews)
    (fun error =>
       res_status_json 500
         (error_obj ("Failed to fetch reviews for TV show with id " +:+ series_id)))).

Definition recommendations : handler := fun req =>
  validateSeriesId req (
  let series_id := path_id req in
  try_catch
    (data ← fetchFromTmdb ("/tv/" +:+ series_id +:+ "/recommendations") [];
     results ← lift (get data "results");
     shows ← lift (array_map (new TVShow) results);
     res_json shows)
    (fun error =>
       res_status_json 500
         (error_obj ("Failed to fetch recommendations for TV show with id " +:+ series_id)))).

Definition similar : handler := fun req =>
  validateSeriesId req (
  let series_id := path_id req in
  try_catch
    (data ← fetchFromTmdb ("/tv/" +:+ series_id +:+ "/similar") [];
     results ← lift (get data "results");
     shows ← lift (array_map (new TVShow) results);
     res_json shows)
    (fun error =>
       res_status_json 500
         (error_obj ("Failed to fetch similar TV shows for id " +:+ series_id)))).

End TvShowController.

(** ** controller/personController.js *)
Module PersonController.

Definition health : handler := fun req =>
  res_status_json 200 (message_obj "Person API is running").

Definition popular : handler := fun req =>
  try_catch
    (data ← fetchFromTmdb "/person/popular" [];
     results ← lift (get data "results");
     persons ← lift (array_map (new Person) results);
     res_json persons)
    (fun error => res_status_json 500 (error_obj "Failed to fetch popular persons")).

Definition search : handler := fun req =>
  let query := query req in
  try_catch
    (w ← ask;
     text ← lift (to_string w query);
     data ← fetchFromTmdb ("/search/person?query=" +:+ text) [];
     results ← lift (get data "results");
     persons ← lift (array_map (new Person) results);
     res_json persons)
    (fun error => res_status_json 500 (error_obj "Failed to perform search")).

Definition movie_credits : handler := fun req =>
  try_catch
    (data ← fetchFromTmdb ("/person/" +:+ path_id req +:+ "/movie_credits") [];
     cast ← lift (get data "cast");
     movies ← lift (array_map (new Movie) cast);
     res_json movies)
    (fun error => res_status_json 500 (error_obj "Failed to fetch person movie credits")).

Definition tv_credits : handler := fun req =>
  try_catch
    (data ← fetchFromTmdb ("/person/" +:+ path_id req +:+ "/tv_credits") [];
     cast ← lift (get data "cast");
     shows ← lift (array_map (new TVShow) cast);
     res_json shows)
    (fun error => res_status_json 500 (error_obj "Failed to fetch person TV credits")).

Definition images : handler := fun req =>
  try_catch
    (data ← fetchFromTmdb ("/person/" +:+ path_id req +:+ "/images") [];
     res_json data)
    (fun error => res_status_json 500 (error_obj "Failed to fetch person images")).

Definition external_ids : handler := fun req =>
  try_catch
    (data ← fetchFromTmdb ("/person/" +:+ path_id req +:+ "/external_ids") [];
     res_json data)
    (fun error => res_status_json 500 (error_obj "Failed to fetch external IDs")).

Definition details : handler := fun req =>
  try_catch
    (data ← fetchFromTmdb ("/person/" +:+ path_id req) [];
     person ← lift (new Person data);
     res_json person)
    (fun error => res_status_json 500 (error_obj "Failed to fetch person details")).

End PersonController.

(** ** The entry script: [/validate] on the port-3001 server *)
Module App.

(** It calls axios itself, on the base URL as configured (not trimmed). *)
Definition validate : handler := fun req =>
  try_catch
    (w ← ask;
     _ ← axios_get_data (TMDB_BASE_URL w +:+ "/configuration")
           [("api_key", env (TMDB_API_KEY w))];
     res_status_send 200 "API key is valid.")
    (fun error =>
       res_status_send 500 "API key is invalid or TMDB service is unavailable.").

End App.

(** ** All routes *)
Module Server.

Inductive route : Type :=
  | tmdb_health | tmdb_auth_validate | tmdb_search_collection
  | tmdb_search_company | tmdb_search_multi | tmdb_search_keyword
  | movie_health | movie_images | movie_credits | movie_external_ids
  | movie_recommendations | movie_reviews | movie_similar | movie_videos
  | movie_watch_providers | movie_search | movie_popular | movie_now_playing
  | movie_top_rated | movie_upcoming | movie_details
  | tv_health | tv_popular | tv_latest | tv_airing_today | tv_on_the_air
  | tv_top_rated | tv_search | tv_details | tv_videos | tv_watch_providers
  | tv_images | tv_credits | tv_reviews | tv_recommendations | tv_similar
  | person_health | person_popular | person_search | person_movie_credits
  | person_tv_credits | person_images | person_external_ids | person_details
  | app_validate.

Definition handle (r : route) : handler :=
  match r with
  | tmdb_health => TmdbController.health
  | tmdb_auth_validate => TmdbController.auth_validate
  | tmdb_search_collection => TmdbController.search_collection
  | tmdb_search_company => TmdbController.search_company
  | tmdb_search_multi => TmdbController.search_multi
  | tmdb_search_keyword => TmdbController.search_keyword
  | movie_health => MovieController.health
  | movie_images => MovieController.images
  | movie_credits => MovieController.credits
  | movie_external_ids => MovieController.external_ids
  | movie_recommendations => MovieController.recommendations
  | movie_reviews => MovieController.reviews
  | movie_similar => MovieController.similar
  | movie_videos => MovieController.videos
  | movie_watch_providers => MovieController.watch_providers
  | movie_search => MovieController.search
  | movie_popular => MovieController.popular
  | movie_now_playing => MovieController.now_playing
  | movie_top_rated => MovieController.top_rated
  | movie_upcoming => MovieController.upcoming
  | movie_details => MovieController.details
  | tv_health => TvShowController.health
  | tv_popular => TvShowController.popular
  | tv_latest => TvShowController.latest
  | tv_airing_today => TvShowController.airing_today
  | tv_on_the_air => TvShowController.on_the_air
  | tv_top_rated => TvShowController.top_rated
  | tv_search => TvShowController.search_tv
  | tv_details => TvShowController.details
  | tv_videos => TvShowController.videos
  | tv_watch_providers => TvShowController.watch_providers
  | tv_images => TvShowController.images
  | tv_credits => TvShowController.credits
  | tv_reviews => TvShowController.reviews
  | tv_recommendations => TvShowController.recommendations
  | tv_similar => TvShowController.similar
  | person_health => PersonController.health
  | person_popular => PersonController.popular
  | person_search => PersonController.search
  | person_movie_credits => PersonController.movie_credits
  | person_tv_credits => PersonController.tv_credits
  | person_images => PersonController.images
  | person_external_ids => PersonController.external_ids
  | person_details => PersonController.details
  | app_validate => App.validate
  end.

(** One request: the handler runs in world [w] on an empty call log and
    leaves its response (or an uncaught exception) and the upstream calls
    it made. *)
Definition serve (r : route) (req : request) (w : world) : result response * list call :=
  handle r req w [].

End Server.
Import Server.

(** ** What the constructors build from a raw object

    The records below are the values of the constructors on an object
    [r]; [author_details_rating] and the predicates after it are the
    notions the specification uses to talk about raw objects. *)
Module Shape.

Definition media_fields : list string :=
  ["id"; "mediaType"; "popularity"; "overview"; "posterPath"; "backdropPath"].
Definition movie_fields : list string :=
  media_fields ++ ["title"; "originalTitle"; "releaseDate"; "genreIds"; "voteAverage"; "voteCount"].
Definition tvshow_fields : list string :=
  media_fields ++ ["name"; "originalName"; "firstAirDate"; "genreIds"; "voteAverage"; "voteCount"].
Definition person_fields : list string :=
  media_fields ++ ["name"; "knownFor"; "gender"; "knownForDepartment"].
Definition review_fields : list string :=
  ["author"; "content"; "created"; "updated"; "rating"].

Definition movie_record (r : obj) : obj :=
  [("id", obj_get r "id"); ("mediaType", VStr "Movie");
   ("popularity", obj_get r "popularity"); ("overview", obj_get r "overview");
   ("posterPath", obj_get r "poster_path"); ("backdropPath", obj_get r "backdrop_path");
   ("title", obj_get r "title"); ("originalTitle", obj_get r "original_title");
   ("releaseDate", obj_get r "release_date"); ("genreIds", obj_get r "genre_ids");
   ("voteAverage", obj_get r "vote_average"); ("voteCount", obj_get r "vote_count")].

Definition tvshow_record (r : obj) : obj :=
  [("id", obj_get r "id"); ("mediaType", VStr "TVShow");
   ("popularity", obj_get r "popularity"); ("overview", obj_get r "overview");
   ("posterPath", obj_get r "poster_path"); ("backdropPath", obj_get r "backdrop_path");
   ("name", obj_get r "name"); ("originalName", obj_get r "original_name");
   ("firstAirDate", obj_get r "first_air_date"); ("genreIds", obj_get r "genre_ids");
   ("voteAverage", obj_get r "vote_average"); ("voteCount", obj_get r "vote_count")].

Definition person_record (r : obj) : obj :=
  [("id", obj_get r "id"); ("mediaType", VStr "Person");
   ("popularity", obj_get r "popularity"); ("overview", obj_get r "overview");
   ("posterPath", obj_get r "poster_path"); ("backdropPath", obj_get r "backdrop_path");
   ("name", obj_get r "name"); ("knownFor", obj_get r "known_for");
   ("gender", obj_get r "gender");
   ("knownForDepartment", obj_get r "known_for_department")].

(** The nested field [author_details.rating] of a raw object:
    [undefined] when either level is absent. *)
Definition author_details_rating (r : obj) : value :=
  match obj_get r "author_details" with
  | VObj a => obj_get a "rating"
  | _ => VUndef
  end.

Definition rating_missing (r : obj) : Prop := author_details_rating r = VUndef.

(** [author_details] is there and is not [null]. *)
Definition author_details_present (r : obj) : Prop :=
  obj_get r "author_details" <> VUndef /\ obj_get r "author_details" <> VNull.

Definition review_record (r : obj) : obj :=
  [("author", obj_get r "author"); ("content", obj_get r "content");
   ("created", obj_get r "created_at"); ("updated", obj_get r "updated_at");
   ("rating", logical_or (author_details_rating r) zero)].

(** [k in o] *)
Definition has_field (o : obj) (k : string) : Prop := k ∈ keys o.

End Shape.
Import Shape.

(** ** The callbacks applied to the elements of a [results] array *)
Module Normalizer.

Inductive normalizer : Type :=
  | for_movie | for_tvshow | for_person | for_review | for_multi.

Definition normalize (n : normalizer) : value -> result value :=
  match n with
  | for_movie => new Movie
  | for_tvshow => new TVShow
  | for_person => new Person
  | for_review => new Review
  | for_multi => TmdbController.multi_item
  end.

(** What [/search/multi] returns for a raw item. *)
Definition multi_record (item : obj) : value :=
  let tag := obj_get item "media_type" in
  if TmdbController.is_str tag "movie" then VObj (movie_record item)
  else if TmdbController.is_str tag "tv" then VObj (tvshow_record item)
  else if TmdbController.is_str tag "person" then VObj (person_record item)
  else VObj item.

End Normalizer.
Import Normalizer.

(** ** The notions of the forwarding contract *)
Module Contract.

(** The number of slashes an endpoint starts with. *)
Fixpoint leading_slashes (s : string) : nat :=
  match s with
  | String c s' => if Ascii.eqb c "/"%char then S (leading_slashes s') else 0
  | EmptyString => 0
  end.

(** The first property of [o] is named by an array index. *)
Definition index_first (o : obj) : Prop :=
  match o with
  | (k, _) :: _ => array_index k <> None
  | [] => False
  end.

(** No property of [o] is named by an array index. *)
Definition no_index (o : obj) : Prop :=
  forall k, k ∈ keys o -> array_index k = None.

(** Some upstream call among [calls] was rejected. *)
Definition upstream_failed (w : world) (calls : list call) : Prop :=
  Exists (fun c => exists e, axios_get w (url c) (params c) = Throw e) calls.

(** The query parameter is empty or missing. *)
Definition no_query (req : request) : Prop :=
  query req = VUndef \/ query req = VStr "".

(** An error response: any status from 400 on. *)
Definition is_error (resp : response) : Prop := 400 <= status resp.

(** The body is [{ error: <string> }]. *)
Definition error_body (b : body) : Prop := exists msg, b = Json (error_obj msg).

(** The routes under [/:series_id]: their failure message ends with the
    id. *)
Definition by_series_id (r : route) : bool :=
  match r with
  | tv_details | tv_videos | tv_watch_providers | tv_images | tv_credits
  | tv_reviews | tv_recommendations | tv_similar => true
  | _ => false
  end.

(** The text each handler puts in the [catch] block of its upstream call
    (for the routes by series id, the text before the id; none for the
    health routes, which have no such block). *)
Definition failure_text (r : route) : string :=
  match r with
  | tmdb_health | movie_health | tv_health | person_health => ""
  | tmdb_auth_validate => "Invalid API Key"
  | tmdb_search_collection => "Failed to fetch collections"
  | tmdb_search_company => "Failed to fetch companies"
  | tmdb_search_multi => "Failed to fetch multi-search results"
  | tmdb_search_keyword => "Failed to fetch keywords"
  | movie_images => "Failed to fetch movie images"
  | movie_credits => "Failed to fetch movie credits"
  | movie_external_ids => "Failed to fetch movie external IDs"
  | movie_recommendations => "Failed to fetch movie recommendations"
  | movie_reviews => "Failed to fetch movie reviews"
  | movie_similar => "Failed to fetch similar movies"
  | movie_videos => "Failed to fetch movie videos"
  | movie_watch_providers => "Failed to fetch movie watch providers"
  | movie_search => "Failed to search movies"
  | movie_popular => "Failed to fetch popular movies"
  | movie_now_playing => "Failed to fetch now playing movies"
  | movie_top_rated => "Failed to fetch top-rated movies"
  | movie_upcoming => "Failed to fetch upcoming movies"
  | movie_details => "Failed to fetch movie details"
  | tv_popular => "Failed to fetch popular TV shows"
  | tv_latest => "Failed to fetch latest TV show"
  | tv_airing_today => "Failed to fetch airing today TV shows"
  | tv_on_the_air => "Failed to fetch TV shows on the air"
  | tv_top_rated => "Failed to fetch top-rated TV shows"
  | tv_search => "Failed to search TV shows"
  | tv_details => "Failed to fetch TV show with id "
  | tv_videos => "Failed to fetch videos for TV show with id "
  | tv_watch_providers => "Failed to fetch watch providers for TV show with id "
  | tv_images => "Failed to fetch images for TV show with id "
  | tv_credits => "Failed to fetch credits for TV show with id "
  | tv_reviews => "Failed to fetch reviews for TV show with id "
  | tv_recommendations => "Failed to fetch recommendations for TV show with id "
  | tv_similar => "Failed to fetch similar TV shows for id "
  | person_popular => "Failed to fetch popular persons"
  | person_search => "Failed to perform search"
  | person_movie_credits => "Failed to fetch person movie credits"
  | person_tv_credits => "Failed to fetch person TV credits"
  | person_images => "Failed to fetch person images"
  | person_external_ids => "Failed to fetch external IDs"
  | person_details => "Failed to fetch person details"
  | app_validate => "API key is invalid or TMDB service is unavailable."
  end.

Definition failure_message (r : route) (req : request) : string :=
  if by_series_id r then failure_text r +:+ path_id req else failure_text r.

(** What a handler answers from its [catch] block. *)
Definition failure_response (r : route) (req : request) : response :=
  match r with
  | tmdb_auth_validate => Response 401 (Json (error_obj (failure_text r)))
  | app_validate => Response 500 (Text (failure_text r))
  | _ => Response 500 (Json (error_obj (failure_message r req)))
  end.

(** The ways a request can end: the handler answers without calling
    upstream (a health route, a rejected input, or an exception before the
    call); the one upstream call is rejected and the [catch] block
    answers; or upstream answers and the handler returns the shaped data,
    or the [catch] block's answer when shaping throws. *)
Inductive outcome (r : route) (req : request) (w : world)
  : result response * list call -> Prop :=
  | answered_locally (resp : response) :
      status resp = 200 \/
      (status resp = 400 /\ error_body (payload resp)) \/
      resp = failure_response r req ->
      outcome r req w (Ok resp, [])
  | upstream_rejected (c : call) (e : exn) :
      axios_get w (url c) (params c) = Throw e ->
      outcome r req w (Ok (failure_response r req), [c])
  | upstream_answered (c : call) (data : value) (resp : response) :
      axios_get w (url c) (params c) = Ok data ->
      status resp = 200 \/ resp = failure_response r req ->
      outcome r req w (Ok resp, [c]).

(** The characters [encodeURIComponent] leaves as they are. *)
Definition unreserved (c : ascii) : bool :=
  let n := nat_of_ascii c in
  ((65 <=? n)%nat && (n <=? 90)%nat) || ((97 <=? n)%nat && (n <=? 122)%nat)
  || ((48 <=? n)%nat && (n <=? 57)%nat)
  || existsb (Ascii.eqb c) ["-"; "_"; "."; "!"; "~"; "*"; "'"; "("; ")"]%char.

Definition hex_digit (n : nat) : ascii :=
  nth n ["0"; "1"; "2"; "3"; "4"; "5"; "6"; "7"; "8"; "9";
         "A"; "B"; "C"; "D"; "E"; "F"]%char "0"%char.

(** [encodeURIComponent] on a text given by its UTF-8 bytes: every byte
    but the unreserved characters becomes [%XX]. *)
Fixpoint percent_encode (s : string) : string :=
  match s with
  | EmptyString => EmptyString
  | String c s' =>
      if unreserved c then String c (percent_encode s')
      else String "%" (String (hex_digit (nat_of_ascii c / 16))
                         (String (hex_digit (nat_of_ascii c mod 16)) (percent_encode s')))
  end.

(** A world whose upstream rejects every call with the same error. *)
Definition upstream_down (msg : string) : world :=
  {| TMDB_API_KEY := Some "k3y";
     TMDB_BASE_URL := "https://api.themoviedb.org/3/";
     axios_get := fun _ _ => Throw (AxiosError msg);
     encodeURIComponent := fun s => Ok (percent_encode s);
     Number := fun _ => S754_zero false;
     Number_toString := fun _ => "0" |}.

(** A world whose upstream answers every call with [data]. *)
Definition upstream_answers (data : value) : world :=
  {| TMDB_API_KEY := Some "k3y";
     TMDB_BASE_URL := "https://api.themoviedb.org/3";
     axios_get := fun _ _ => Ok data;
     encodeURIComponent := fun s => Ok (percent_encode s);
     Number := fun _ => S754_zero false;
     Number_toString := fun _ => "0" |}.

End Contract.
Import Contract.

(** ** What each handler makes of the upstream body, and where it asks *)
Module Shaping.

(** The ways the handlers shape [data] before [res.json]. *)
Inductive shape : Type :=
  | whole_body                                              (* res.json(data) *)
  | body_field (k : string)                                 (* res.json(data.k) *)
  | one_entity (C : value -> obj -> result obj)             (* res.json(new C(data)) *)
  | entity_list (k : string) (C : value -> obj -> result obj)
                                        (* res.json(data.k.map(x => new C(x))) *)
  | cast_and_crew                                           (* res.json({ cast, crew }) *)
  | multi_search.                                           (* res.json({ searchResults }) *)

(** The shape each route's handler uses; none for the routes that do not
    read the body (health and the two credential checks). *)
Definition shape_of (r : route) : option shape :=
  match r with
  | tmdb_health | movie_health | tv_health | person_health
  | tmdb_auth_validate | app_validate => None
  | tmdb_search_collection | tmdb_search_company | tmdb_search_keyword
  | movie_images | movie_external_ids | person_images | person_external_ids =>
      Some whole_body
  | tmdb_search_multi => Some multi_search
  | movie_credits | tv_credits => Some cast_and_crew
  | movie_recommendations | movie_similar | movie_search | movie_popular
  | movie_now_playing | movie_top_rated | movie_upcoming =>
      Some (entity_list "results" Movie)
  | movie_reviews | tv_reviews => Some (entity_list "results" Review)
  | movie_videos | movie_watch_providers | tv_videos | tv_watch_providers =>
      Some (body_field "results")
  | tv_images => Some (body_field "backdrops")
  | movie_details => Some (one_entity Movie)
  | tv_latest | tv_details => Some (one_entity TVShow)
  | tv_popular | tv_airing_today | tv_on_the_air | tv_top_rated | tv_search
  | tv_recommendations | tv_similar => Some (entity_list "results" TVShow)
  | person_popular | person_search => Some (entity_list "results" Person)
  | person_movie_credits => Some (entity_list "cast" Movie)
  | person_tv_credits => Some (entity_list "cast" TVShow)
  | person_details => Some (one_entity Person)
  end.

(** The value handed to [res.json], or the exception on the way. *)
Definition shaped (s : shape) (data : value) : result value :=
  match s with
  | whole_body => Ok data
  | body_field k => get data k
  | one_entity C => new C data
  | entity_list k C =>
      xs ← get data k;
      array_map (new C) xs
  | cast_and_crew =>
      cast ← get data "cast";
      cast ← array_map (new Person) cast;
      crew ← get data "crew";
      crew ← array_map (new Person) crew;
      mret (VObj [("cast", cast); ("crew", crew)])
  | multi_search =>
      results ← get data "results";
      searchResults ← array_map TmdbController.multi_item results;
      mret (VObj [("searchResults", searchResults)])
  end.

(** The properties of a raw value that a constructor can read: those of
    an object, none of a primitive or an array. *)
Definition raw_props (data : value) : obj :=
  match data with
  | VObj o => o
  | _ => []
  end.

(** The endpoint of each route under [/:series_id]. *)
Definition series_endpoint (r : route) (series_id : string) : string :=
  match r with
  | tv_videos => "/tv/" +:+ series_id +:+ "/videos"
  | tv_watch_providers => "/tv/" +:+ series_id +:+ "/watch/providers"
  | tv_images => "/tv/" +:+ series_id +:+ "/images"
  | tv_credits => "/tv/" +:+ series_id +:+ "/credits"
  | tv_reviews => "/tv/" +:+ series_id +:+ "/reviews"
  | tv_recommendations => "/tv/" +:+ series_id +:+ "/recommendations"
  | tv_similar => "/tv/" +:+ series_id +:+ "/similar"
  | _ => "/tv/" +:+ series_id
  end.

(** The routes [/:movie_id/<what>] of the movie controller and their
    last path segment(s). *)
Definition movie_sub_resource (r : route) : option string :=
  match r with
  | movie_images => Some "/images"
  | movie_credits => Some "/credits"
  | movie_external_ids => Some "/external_ids"
  | movie_recommendations => Some "/recommendations"
  | movie_reviews => Some "/reviews"
  | movie_similar => Some "/similar"
  | movie_videos => Some "/videos"
  | movie_watch_providers => Some "/watch/providers"
  | _ => None
  end.

(** The call [fetchFromTmdb(endpoint, ps)] makes. *)
Definition helper_call (w : world) (endpoint : string) (ps : obj) : call :=
  Call (tmdbBaseUrl w +:+ normalized_endpoint endpoint)
       (spread [("api_key", tmdbApiKey w)] ps).

(** The upstream call each handler makes for a request, if it makes one:
    none on the health routes, and none when the handler stops before the
    call (the query guard, the series-id check, or an exception while the
    endpoint is being built). *)
Definition upstream_call (r : route) (req : request) (w : world) : option call :=
  match r with
  | tmdb_health | movie_health | tv_health | person_health => None
  | tmdb_auth_validate => Some (helper_call w "/authentication/token/new" [])
  | tmdb_search_collection =>
      Some (helper_call w "/search/collection" [("query", query req)])
  | tmdb_search_company => Some (helper_call w "/search/company" [("query", query req)])
  | tmdb_search_multi => Some (helper_call w "/search/multi" [("query", query req)])
  | tmdb_search_keyword => Some (helper_call w "/search/keyword" [("query", query req)])
  | movie_images => Some (helper_call w ("/movie/" +:+ path_id req +:+ "/images") [])
  | movie_credits => Some (helper_call w ("/movie/" +:+ path_id req +:+ "/credits") [])
  | movie_external_ids =>
      Some (helper_call w ("/movie/" +:+ path_id req +:+ "/external_ids") [])
  | movie_recommendations =>
      Some (helper_call w ("/movie/" +:+ path_id req +:+ "/recommendations") [])
  | movie_reviews => Some (helper_call w ("/movie/" +:+ path_id req +:+ "/reviews") [])
  | movie_similar => Some (helper_call w ("/movie/" +:+ path_id req +:+ "/similar") [])
  | movie_videos => Some (helper_call w ("/movie/" +:+ path_id req +:+ "/videos") [])
  | movie_watch_providers =>
      Some (helper_call w ("/movie/" +:+ path_id req +:+ "/watch/providers") [])
  | movie_search =>
      if truthy (query req)
      then Some (helper_call w "/search/movie" [("query", query req)])
      else None
  | movie_popular => Some (helper_call w "/movie/popular" [])
  | movie_now_playing => Some (helper_call w "/movie/now_playing" [])
  | movie_top_rated => Some (helper_call w "/movie/top_rated" [])
  | movie_upcoming => Some (helper_call w "/movie/upcoming" [])
  | movie_details =>
      Some (helper_call w ("/movie/" +:+ Number_toString w (Number w (path_id req))) [])
  | tv_popular => Some (helper_call w "/tv/popular" [])
  | tv_latest => Some (helper_call w "/tv/latest" [])
  | tv_airing_today => Some (helper_call w "/tv/airing_today" [])
  | tv_on_the_air => Some (helper_call w "/tv/on_the_air" [])
  | tv_top_rated => Some (helper_call w "/tv/top_rated" [])
  | tv_search =>
      if truthy (query req) then
        match to_string w (query req) with
        | Ok text =>
            match encodeURIComponent w text with
            | Ok encoded => Some (helper_call w ("/search/tv?query=" +:+ encoded) [])
            | Throw _ => None
            end
        | Throw _ => None
        end
      else None
  | tv_details | tv_videos | tv_watch_providers | tv_images | tv_credits
  | tv_reviews | tv_recommendations | tv_similar =>
      if TvShowController.digits_only (path_id req)
      then Some (helper_call w (series_endpoint r (path_id req)) [])
      else None
  | person_popular => Some (helper_call w "/person/popular" [])
  | person_search =>
      match to_string w (query req) with
      | Ok text => Some (helper_call w ("/search/person?query=" +:+ text) [])
      | Throw _ => None
      end
  | person_movie_credits =>
      Some (helper_call w ("/person/" +:+ path_id req +:+ "/movie_credits") [])
  | person_tv_credits =>
      Some (helper_call w ("/person/" +:+ path_id req +:+ "/tv_credits") [])
  | person_images => Some (helper_call w ("/person/" +:+ path_id req +:+ "/images") [])
  | person_external_ids =>
      Some (helper_call w ("/person/" +:+ path_id req +:+ "/external_ids") [])
  | person_details => Some (helper_call w ("/person/" +:+ path_id req) [])
  | app_validate =>
      Some (Call (TMDB_BASE_URL w +:+ "/configuration") [("api_key", env (TMDB_API_KEY w))])
  end.

(** The callback of the routes that map over [data.results]. *)
Definition results_normalizer (r : route) : option normalizer :=
  match r with
  | movie_recommendations | movie_similar | movie_search | movie_popular
  | movie_now_playing | movie_top_rated | movie_upcoming => Some for_movie
  | tv_popular | tv_airing_today | tv_on_the_air | tv_top_rated | tv_search
  | tv_recommendations | tv_similar => Some for_tvshow
  | person_popular | person_search => Some for_person
  | movie_reviews | tv_reviews => Some for_review
  | tmdb_search_multi => Some for_multi
  | _ => None
  end.

(** The shape that goes with a callback over [data.results]. *)
Definition results_shape (n : normalizer) : shape :=
  match n with
  | for_movie => entity_list "results" Movie
  | for_tvshow => entity_list "results" TVShow
  | for_person => entity_list "results" Person
  | for_review => entity_list "results" Review
  | for_multi => multi_search
  end.

(** A raw element a callback is meant for: a raw object, on the review
    routes one whose [author_details] is present and not [null]. *)
Definition accepted (n : normalizer) (x : value) : Prop :=
  exists o, x = VObj o /\ (n = for_review -> author_details_present o).

(** What a route wraps the normalized array in before [res.json]. *)
Definition answer_body (r : route) (ys : list value) : value :=
  match r with
  | tmdb_search_multi => VObj [("searchResults", VArr ys)]
  | _ => VArr ys
  end.

(** The characters of a string. *)
Fixpoint chars (s : string) : list ascii :=
  match s with
  | EmptyString => []
  | String c s' => c :: chars s'
  end.

End Shaping.
Import Shaping.

(** * Properties *)

(** ** Objects *)

Lemma obj_get_absent (o : obj) (k : string) : k ∉ keys o -> obj_get o k = VUndef.
Proof.
  induction o as [|[k' v] o IH]; simpl; [done|].
  intros Hk. apply not_elem_of_cons in Hk as [Hne Hk].
  destruct (String.eqb_spec k' k) as [->|_]; [done|]. by apply IH.
Qed.

(** ** The constructors on raw objects *)

Lemma Movie_obj (r : obj) : new Movie (VObj r) = Ok (VObj (movie_record r)).
Proof. reflexivity. Qed.

Lemma TVShow_obj (r : obj) : new TVShow (VObj r) = Ok (VObj (tvshow_record r)).
Proof. reflexivity. Qed.

Lemma Person_obj (r : obj) : new Person (VObj r) = Ok (VObj (person_record r)).
Proof. reflexivity. Qed.

Lemma Review_obj (r : obj) :
  author_details_present r -> new Review (VObj r) = Ok (VObj (review_record r)).
Proof.
  intros [Hu Hn]. unfold new, Review, review_record, author_details_rating. simpl.
  destruct (obj_get r "author_details"); done.
Qed.

Lemma Review_keys (r m : obj) :
  new Review (VObj r) = Ok (VObj m) -> keys m = review_fields.
Proof.
  unfold new, Review. simpl.
  destruct (get (obj_get r "author_details") "rating"); simpl; [|done].
  by intros [= <-].
Qed.

(** C1. Whatever raw object [r] is given, and whatever [media_type] it
    carries, [new Movie(r)] has [mediaType] equal to ["Movie"],
    [new TVShow(r)] has ["TVShow"] and [new Person(r)] has ["Person"]. *)
Theorem mediaType_is_constructor_tag (r : obj) :
  (exists m, new Movie (VObj r) = Ok (VObj m) /\ obj_get m "mediaType" = VStr "Movie") /\
  (exists m, new TVShow (VObj r) = Ok (VObj m) /\ obj_get m "mediaType" = VStr "TVShow") /\
  (exists m, new Person (VObj r) = Ok (VObj m) /\ obj_get m "mediaType" = VStr "Person").
Proof.
  split_and!.
  - exists (movie_record r). by rewrite Movie_obj.
  - exists (tvshow_record r). by rewrite TVShow_obj.
  - exists (person_record r). by rewrite Person_obj.
Qed.

(** The base constructor alone would have kept the upstream tag. *)
Example Media_keeps_upstream_tag :
  new Media (VObj [("media_type", VStr "tv")])
  = Ok (VObj [("id", VUndef); ("mediaType", VStr "tv"); ("popularity", VUndef);
              ("overview", VUndef); ("posterPath", VUndef); ("backdropPath", VUndef)])
  /\ (exists m, new Movie (VObj [("media_type", VStr "tv")]) = Ok (VObj m)
              /\ obj_get m "mediaType" = VStr "Movie").
Proof. split; [reflexivity|]. eexists. split; reflexivity. Qed.

(** C2, as stated, fails on the empty object: its nested field
    [author_details.rating] is missing, and [new Review] throws instead of
    building a record with rating [0]. *)
Lemma Review_rating_default_fails_without_author_details :
  rating_missing [] /\
  new Review (VObj [])
  = Throw (TypeError "Cannot read properties of undefined (reading 'rating')") /\
  ~ (exists m, new Review (VObj []) = Ok (VObj m) /\ obj_get m "rating" = zero).
Proof.
  split_and!; [reflexivity..|]. intros (m & Hm & _). discriminate Hm.
Qed.

(** C2 (amended). For every raw object whose [author_details] is present
    and not [null], and in which [author_details.rating] is missing,
    [new Review] builds a record whose [rating] is [0]. *)
Theorem Review_rating_defaults_to_zero (r : obj) :
  author_details_present r -> rating_missing r ->
  exists m, new Review (VObj r) = Ok (VObj m) /\ obj_get m "rating" = zero.
Proof.
  intros Hp Hm. exists (review_record r). split; [by apply Review_obj|].
  unfold review_record. simpl. by rewrite Hm.
Qed.

Lemma Review_rating_defaults_to_zero_witness :
  exists m,
    new Review (VObj [("author", VStr "ann"); ("author_details", VObj [("name", VStr "Ann")])])
    = Ok (VObj m) /\ obj_get m "rating" = zero.
Proof.
  apply Review_rating_defaults_to_zero.
  - split; discriminate.
  - reflexivity.
Defined.

(** C3, as stated, fails for [Review]: on a raw review that has no
    [author_details] the constructor throws a [TypeError]. *)
Lemma Review_throws_without_author_details :
  new Review (VObj [("author", VStr "ann"); ("content", VStr "fine")])
  = Throw (TypeError "Cannot read properties of undefined (reading 'rating')") /\
  ~ (exists v, new Review (VObj [("author", VStr "ann"); ("content", VStr "fine")]) = Ok v).
Proof. split; [reflexivity|]. intros [v Hv]. discriminate Hv. Qed.

(** C3 (amended). On every raw object the [Movie], [TVShow] and [Person]
    constructors return, without any check of the input, the record whose
    fields are read off the raw object (a field the raw object lacks is
    [undefined] in the record); the [Review] constructor does so on every
    raw object whose [author_details] is present and not [null]. *)
Theorem constructors_succeed (r : obj) :
  new Movie (VObj r) = Ok (VObj (movie_record r)) /\
  new TVShow (VObj r) = Ok (VObj (tvshow_record r)) /\
  new Person (VObj r) = Ok (VObj (person_record r)) /\
  (author_details_present r -> new Review (VObj r) = Ok (VObj (review_record r))) /\
  (forall k, k ∉ keys r -> obj_get r k = VUndef).
Proof.
  split_and!; auto using Movie_obj, TVShow_obj, Person_obj, Review_obj, obj_get_absent.
Qed.

Lemma constructors_succeed_witness :
  new Review (VObj [("author_details", VObj [("rating", VNum (S754_finite false 1 3))])])
  = Ok (VObj [("author", VUndef); ("content", VUndef); ("created", VUndef);
              ("updated", VUndef); ("rating", VNum (S754_finite false 1 3))]).
Proof.
  apply (constructors_succeed
           [("author_details", VObj [("rating", VNum (S754_finite false 1 3))])]).
  split; discriminate.
Defined.

(** An empty raw object: every field is absent, none is checked. *)
Example Person_of_empty_object :
  new Person (VObj [])
  = Ok (VObj [("id", VUndef); ("mediaType", VStr "Person"); ("popularity", VUndef);
              ("overview", VUndef); ("posterPath", VUndef); ("backdropPath", VUndef);
              ("name", VUndef); ("knownFor", VUndef); ("gender", VUndef);
              ("knownForDepartment", VUndef)]).
Proof. reflexivity. Qed.

(** C10. The record a constructor builds has exactly the constructor's
    fields, whatever fields the raw object has: twelve for [Movie] and
    [TVShow], ten for [Person], five for [Review]. *)
Theorem record_fields_closed (r : obj) :
  (exists m, new Movie (VObj r) = Ok (VObj m) /\
     keys m = ["id"; "mediaType"; "popularity"; "overview"; "posterPath"; "backdropPath";
               "title"; "originalTitle"; "releaseDate"; "genreIds"; "voteAverage";
               "voteCount"]) /\
  (exists m, new TVShow (VObj r) = Ok (VObj m) /\ keys m = tvshow_fields) /\
  (exists m, new Person (VObj r) = Ok (VObj m) /\ keys m = person_fields) /\
  (forall m, new Review (VObj r) = Ok (VObj m) -> keys m = review_fields) /\
  (forall C fields k,
     (C, fields) ∈ [(Movie, movie_fields); (TVShow, tvshow_fields);
                    (Person, person_fields); (Review, review_fields)] ->
     k ∉ fields ->
     forall m, new C (VObj r) = Ok (VObj m) -> ~ has_field m k).
Proof.
  split_and!.
  - by exists (movie_record r).
  - by exists (tvshow_record r).
  - by exists (person_record r).
  - apply Review_keys.
  - intros C fields k HC Hk m Hm. unfold has_field.
    rewrite !elem_of_cons, elem_of_nil in HC.
    destruct HC as [[= -> ->]|[[= -> ->]|[[= -> ->]|[[= -> ->]|[]]]]].
    + rewrite Movie_obj in Hm. by injection Hm as <-.
    + rewrite TVShow_obj in Hm. by injection Hm as <-.
    + rewrite Person_obj in Hm. by injection Hm as <-.
    + by rewrite (Review_keys _ _ Hm).
Qed.

Lemma record_fields_closed_witness :
  ~ has_field
      [("id", VUndef); ("mediaType", VStr "Movie"); ("popularity", VUndef);
       ("overview", VUndef); ("posterPath", VUndef); ("backdropPath", VUndef);
       ("title", VStr "Heat"); ("originalTitle", VUndef); ("releaseDate", VUndef);
       ("genreIds", VUndef); ("voteAverage", VUndef); ("voteCount", VUndef)]
      "adult".
Proof.
  refine (proj2 (proj2 (proj2 (proj2
            (record_fields_closed [("title", VStr "Heat"); ("adult", VBool true)]))))
          Movie movie_fields "adult" _ _ _ _).
  - apply list_elem_of_here.
  - vm_compute. intros H. repeat (apply elem_of_cons in H as [H|H]; [discriminate H|]).
    by apply elem_of_nil in H.
  - reflexivity.
Defined.

(** ** Arrays *)

Lemma map_elements_Ok (f : value -> result value) (xs ys : list value) :
  map_elements f xs = Ok ys <-> Forall2 (fun x y => f x = Ok y) xs ys.
Proof.
  revert ys. induction xs as [|x xs IH]; intros ys; simpl.
  - split.
    + intros [= <-]. constructor.
    + intros H. by inversion H.
  - split.
    + destruct (f x) as [y|e] eqn:Hx; simpl; [|done].
      destruct (map_elements f xs) as [ys'|e] eqn:Hxs; simpl; [|done].
      intros [= <-]. constructor; [done|]. by apply IH.
    + intros H. inversion H as [|? y ? ys' Hy Hys]; subst.
      rewrite Hy. simpl. apply IH in Hys. by rewrite Hys.
Qed.

Lemma map_elements_total (f : value -> result value) (xs : list value) :
  (forall x, x ∈ xs -> exists y, f x = Ok y) ->
  exists ys, map_elements f xs = Ok ys.
Proof.
  induction xs as [|x xs IH]; intros Hf; simpl.
  - by exists [].
  - destruct (Hf x) as [y ->]; [apply list_elem_of_here|].
    destruct IH as [ys ->].
    + intros x' Hx'. apply Hf. by apply list_elem_of_further.
    + by exists (y :: ys).
Qed.

Lemma map_elements_pure (f : value -> result value) (g : obj -> value) (rs : list obj) :
  (forall r, f (VObj r) = Ok (g r)) ->
  map_elements f (VObj <$> rs) = Ok (g <$> rs).
Proof.
  intros Hf. induction rs as [|r rs IH]; csimpl; [done|].
  by rewrite Hf, IH.
Qed.

Lemma array_map_elementwise (f : value -> result value) (xs : list value) (out : value) :
  array_map f (VArr xs) = Ok out ->
  exists ys, out = VArr ys /\ length ys = length xs /\
    forall i, Ok <$> ys !! i = f <$> xs !! i.
Proof.
  simpl. destruct (map_elements f xs) as [ys|e] eqn:H; simpl; [|done].
  intros [= <-]. exists ys. apply map_elements_Ok in H.
  split_and!; [done|symmetry; by eapply Forall2_length|].
  intros i. destruct (xs !! i) as [x|] eqn:Hx; simpl.
  - destruct (Forall2_lookup_l _ _ _ _ _ H Hx) as (y & -> & ->). done.
  - apply lookup_ge_None in Hx. rewrite (Forall2_length _ _ _ H) in Hx.
    apply lookup_ge_None in Hx. by rewrite Hx.
Qed.

Lemma is_str_true (v : value) (s : string) :
  TmdbController.is_str v s = true <-> v = VStr s.
Proof.
  destruct v; simpl; try (split; [discriminate|intros [=]]).
  destruct (String.eqb_spec s0 s) as [->|Hne]; split; try done.
  intros [= ->]. done.
Qed.

Lemma multi_item_obj (item : obj) :
  TmdbController.multi_item (VObj item) = Ok (multi_record item).
Proof.
  unfold TmdbController.multi_item, multi_record. simpl.
  repeat case_match; reflexivity.
Qed.

(** Equal inputs stay apart and in place. *)
Example results_keep_duplicates :
  array_map (new Review)
    (VArr [VObj [("author", VStr "ann"); ("author_details", VObj [])];
           VObj [("author", VStr "bob"); ("author_details", VObj [])];
           VObj [("author", VStr "ann"); ("author_details", VObj [])]])
  = Ok (VArr [VObj (review_record [("author", VStr "ann"); ("author_details", VObj [])]);
              VObj (review_record [("author", VStr "bob"); ("author_details", VObj [])]);
              VObj (review_record [("author", VStr "ann"); ("author_details", VObj [])])]).
Proof. reflexivity. Qed.

(** A missing tag, a tag that is not a string and a tag in another case
    all fall to the default arm. *)
Example multi_item_default_arm :
  TmdbController.multi_item (VObj [("name", VStr "odd")]) = Ok (VObj [("name", VStr "odd")]) /\
  TmdbController.multi_item (VObj [("media_type", VNull)]) = Ok (VObj [("media_type", VNull)]) /\
  TmdbController.multi_item (VObj [("media_type", VStr "Movie")])
  = Ok (VObj [("media_type", VStr "Movie")]).
Proof. repeat split. Qed.

(** ** helpers/tmdbHelper.js *)

Lemma obj_has_keys (o : obj) (k : string) : obj_has o k = true <-> k ∈ keys o.
Proof.
  unfold keys. induction o as [|[k' v'] o IH]; simpl.
  - split; [done|]. intros H. by apply elem_of_nil in H.
  - rewrite orb_true_iff, elem_of_cons, String.eqb_eq.
    split; (intros [H|H]; [by left|right; by apply IH]).
Qed.

Lemma obj_has_false (o : obj) (k : string) : obj_has o k = false <-> k ∉ keys o.
Proof. rewrite <- obj_has_keys. symmetry. apply not_true_iff_false. Qed.

Lemma keys_obj_update (o : obj) (k : string) (v : value) :
  keys (obj_update o k v) = keys o.
Proof.
  induction o as [|[k' v'] o IH]; [done|]. simpl.
  destruct (String.eqb k' k); [done|]. unfold keys in *. rewrite !fmap_cons.
  by f_equal.
Qed.

Lemma obj_get_update_eq (o : obj) (k : string) (v : value) :
  obj_has o k = true -> obj_get (obj_update o k v) k = v.
Proof.
  induction o as [|[k' v'] o IH]; simpl; [done|].
  destruct (String.eqb k' k) eqn:E; simpl.
  - by rewrite E.
  - rewrite E. exact IH.
Qed.

Lemma obj_get_update_ne (o : obj) (k k' : string) (v : value) :
  k <> k' -> obj_get (obj_update o k v) k' = obj_get o k'.
Proof.
  intros Hne. induction o as [|[k0 v0] o IH]; simpl; [done|].
  destruct (String.eqb_spec k0 k) as [->|Hk]; simpl.
  - by destruct (String.eqb_spec k k').
  - by rewrite IH.
Qed.

Lemma obj_get_add_index_eq (o : obj) (i : N) (k : string) (v : value) :
  obj_has o k = false -> obj_get (obj_add_index o i k v) k = v.
Proof.
  induction o as [|[k' v'] o IH]; simpl.
  - by rewrite String.eqb_refl.
  - intros H. apply orb_false_iff in H as [E H].
    destruct (array_index k') as [j|]; [destruct (j <? i)%N|]; simpl;
      rewrite ?E, ?String.eqb_refl; auto.
Qed.

Lemma obj_get_add_index_ne (o : obj) (i : N) (k k' : string) (v : value) :
  k <> k' -> obj_get (obj_add_index o i k v) k' = obj_get o k'.
Proof.
  intros Hne. apply String.eqb_neq in Hne.
  induction o as [|[k0 v0] o IH]; simpl.
  - by rewrite Hne.
  - destruct (array_index k0) as [j|]; [destruct (j <? i)%N|]; simpl;
      rewrite ?Hne, ?IH; done.
Qed.

Lemma obj_get_snoc_eq (o : obj) (k : string) (v : value) :
  obj_has o k = false -> obj_get (o ++ [(k, v)]) k = v.
Proof.
  induction o as [|[k' v'] o IH]; simpl.
  - by rewrite String.eqb_refl.
  - intros H. apply orb_false_iff in H as [E H]. rewrite E. auto.
Qed.

Lemma obj_get_snoc_ne (o : obj) (k k' : string) (v : value) :
  k <> k' -> obj_get (o ++ [(k, v)]) k' = obj_get o k'.
Proof.
  intros Hne. apply String.eqb_neq in Hne.
  induction o as [|[k0 v0] o IH]; simpl; [by rewrite Hne|]. by rewrite IH.
Qed.

Lemma obj_get_set_eq (o : obj) (k : string) (v : value) :
  obj_get (obj_set o k v) k = v.
Proof.
  unfold obj_set. destruct (obj_has o k) eqn:Hh.
  - by apply obj_get_update_eq.
  - destruct (array_index k); [by apply obj_get_add_index_eq|by apply obj_get_snoc_eq].
Qed.

Lemma obj_get_set_ne (o : obj) (k k' : string) (v : value) :
  k <> k' -> obj_get (obj_set o k v) k' = obj_get o k'.
Proof.
  intros Hne. unfold obj_set. destruct (obj_has o k).
  - by apply obj_get_update_ne.
  - destruct (array_index k); [by apply obj_get_add_index_ne|by apply obj_get_snoc_ne].
Qed.

Lemma obj_set_fresh (o : obj) (k : string) (v : value) :
  k ∉ keys o -> array_index k = None -> obj_set o k v = o ++ [(k, v)].
Proof.
  intros Hk Hi. unfold obj_set. apply obj_has_false in Hk. by rewrite Hk, Hi.
Qed.

Lemma spread_fresh (init params : obj) :
  NoDup (keys init ++ keys params) -> no_index params ->
  spread init params = init ++ params.
Proof.
  unfold spread, no_index. revert init.
  induction params as [|[k v] params IH]; intros init Hnd Hno; simpl.
  - by rewrite app_nil_r.
  - unfold keys in *. rewrite fmap_cons in Hnd, Hno. simpl in Hnd, Hno.
    apply NoDup_app in Hnd as (Hi & Hdisj & Hp).
    apply NoDup_cons in Hp as [Hk Hp].
    rewrite obj_set_fresh.
    + rewrite IH, <- app_assoc; [done| |].
      * rewrite fmap_app. simpl. rewrite <- app_assoc. simpl.
        apply NoDup_app. split_and!; [done| |by apply NoDup_cons].
        intros x Hx Hx'. apply elem_of_cons in Hx' as [->|Hx'].
        -- by apply (Hdisj k), list_elem_of_here.
        -- by apply (Hdisj x), list_elem_of_further.
      * intros x Hx. by apply Hno, list_elem_of_further.
    + intros Hin. by apply (Hdisj k), list_elem_of_here.
    + apply Hno, list_elem_of_here.
Qed.

Lemma obj_set_head (k0 : string) (v0 : value) (o : obj) (k : string) (v : value) :
  array_index k = None ->
  exists v' o', obj_set ((k0, v0) :: o) k v = (k0, v') :: o'.
Proof.
  intros Hi. unfold obj_set. rewrite Hi.
  destruct (obj_has ((k0, v0) :: o) k); simpl; [|eauto].
  destruct (String.eqb k0 k); eauto.
Qed.

Lemma spread_head (k0 : string) (v0 : value) (o params : obj) :
  no_index params ->
  exists v' o', spread ((k0, v0) :: o) params = (k0, v') :: o'.
Proof.
  unfold spread, no_index. revert v0 o.
  induction params as [|[k v] params IH]; intros v0 o Hno; simpl; [eauto|].
  destruct (obj_set_head k0 v0 o k v) as (v' & o' & ->).
  - apply Hno, list_elem_of_here.
  - apply IH. intros x Hx. by apply Hno, list_elem_of_further.
Qed.

Lemma obj_set_index_first (o : obj) (k : string) (v : value) :
  index_first o -> index_first (obj_set o k v).
Proof.
  destruct o as [|[k0 v0] o]; [done|]. cbn [index_first]. intros H0. unfold obj_set.
  destruct (obj_has ((k0, v0) :: o) k).
  - cbn [obj_update]. by destruct (String.eqb k0 k).
  - destruct (array_index k) as [i|] eqn:Hi; [|done].
    cbn [obj_add_index]. destruct (array_index k0) as [j|] eqn:Hk0; [|done].
    destruct (j <? i)%N; cbn [index_first]; [by rewrite Hk0|by rewrite Hi].
Qed.

Lemma obj_set_new_index (o : obj) (k : string) (i : N) (v : value) :
  array_index k = Some i -> no_index o -> index_first (obj_set o k v).
Proof.
  intros Hi Hno. unfold obj_set.
  assert (obj_has o k = false) as ->.
  { apply obj_has_false. intros Hk. apply Hno in Hk. congruence. }
  rewrite Hi. destruct o as [|[k0 v0] o]; cbn [obj_add_index index_first].
  - by rewrite Hi.
  - rewrite (Hno k0) by apply list_elem_of_here. cbn [index_first]. by rewrite Hi.
Qed.

Lemma obj_set_no_index (o : obj) (k : string) (v : value) :
  array_index k = None -> no_index o -> no_index (obj_set o k v).
Proof.
  intros Hi Hno x. unfold obj_set. rewrite Hi. destruct (obj_has o k).
  - rewrite keys_obj_update. apply Hno.
  - unfold keys. rewrite fmap_app, elem_of_app. simpl.
    intros [Hx|Hx]; [by apply Hno|]. by apply list_elem_of_singleton in Hx as ->.
Qed.

Lemma spread_keeps_index_first (init params : obj) :
  index_first init -> index_first (spread init params).
Proof.
  unfold spread. revert init.
  induction params as [|[k v] params IH]; intros init H0; simpl; [done|].
  by apply IH, obj_set_index_first.
Qed.

Lemma spread_index_first (init params : obj) :
  no_index init ->
  (exists k, k ∈ keys params /\ array_index k <> None) ->
  index_first (spread init params).
Proof.
  revert init.
  induction params as [|[k v] params IH]; intros init Hno (x & Hx & Hi).
  - by apply elem_of_nil in Hx.
  - change (index_first (spread (obj_set init k v) params)).
    destruct (array_index k) as [i|] eqn:Hk.
    + by eapply spread_keeps_index_first, obj_set_new_index.
    + apply IH; [by apply obj_set_no_index|].
      exists x. split; [|done].
      unfold keys in Hx. rewrite fmap_cons in Hx. simpl in Hx.
      apply elem_of_cons in Hx as [->|Hx]; [congruence|done].
Qed.

Lemma normalized_endpoint_cases (endpoint : string) :
  (leading_slashes endpoint = 0 /\ normalized_endpoint endpoint = "/" +:+ endpoint) \/
  (1 <= leading_slashes endpoint /\ normalized_endpoint endpoint = endpoint).
Proof.
  unfold normalized_endpoint, startsWith_slash.
  destruct endpoint as [|c s]; simpl; [by left|].
  destruct (Ascii.eqb c "/"%char); [right|left]; split; [lia|done..].
Qed.

Lemma normalized_endpoint_slashes (endpoint : string) :
  leading_slashes (normalized_endpoint endpoint) = max 1 (leading_slashes endpoint).
Proof.
  destruct (normalized_endpoint_cases endpoint) as [[H0 ->]|[H1 ->]].
  - change (S (leading_slashes endpoint) = max 1 (leading_slashes endpoint)). lia.
  - lia.
Qed.

(** C7, as stated, fails on an endpoint that starts with two slashes: it
    is passed on with both. *)
Lemma endpoint_with_two_slashes_is_kept :
  normalized_endpoint "//search/movie" = "//search/movie" /\
  leading_slashes (normalized_endpoint "//search/movie") <> 1.
Proof. split; [reflexivity|discriminate]. Qed.

(** C7 (amended). [fetchFromTmdb(endpoint, params)] makes one GET, to the
    base URL followed by the endpoint, which gets a slash in front exactly
    when it does not start with one (so the path starts with at least one
    slash, and with exactly one when the endpoint had at most one).  The
    parameters are the object [{ api_key, ...params }]: when no caller
    parameter is named by an array index, [api_key] is its first property,
    and the caller's parameters follow it in their order when none of them
    is named [api_key]; a caller parameter named by an array index makes
    such a name the first property instead.  The result is the parsed
    body, or the rejection thrown on. *)
Theorem fetchFromTmdb_request (endpoint : string) (params : obj) (w : world) (log : list call) :
  let url := tmdbBaseUrl w +:+ normalized_endpoint endpoint in
  let fullParams := spread [("api_key", tmdbApiKey w)] params in
  fetchFromTmdb endpoint params w log
    = (axios_get w url fullParams, log ++ [Call url fullParams]) /\
  (leading_slashes endpoint = 0 -> normalized_endpoint endpoint = "/" +:+ endpoint) /\
  (1 <= leading_slashes endpoint -> normalized_endpoint endpoint = endpoint) /\
  1 <= leading_slashes (normalized_endpoint endpoint) /\
  (leading_slashes endpoint <= 1 -> leading_slashes (normalized_endpoint endpoint) = 1) /\
  (no_index params -> exists v rest, fullParams = ("api_key", v) :: rest) /\
  (NoDup (keys params) -> "api_key" ∉ keys params -> no_index params ->
   fullParams = ("api_key", tmdbApiKey w) :: params) /\
  ((exists k, k ∈ keys params /\ array_index k <> None) -> index_first fullParams).
Proof.
  intros url fullParams. split_and!.
  - unfold fetchFromTmdb, try_catch, mbind, M_bind, ask, axios_get_data, throw, mret, M_ret.
    fold url fullParams. by destruct (axios_get w url fullParams).
  - destruct (normalized_endpoint_cases endpoint) as [[_ ->]|[? _]]; [done|lia].
  - destruct (normalized_endpoint_cases endpoint) as [[? _]|[_ ->]]; [lia|done].
  - rewrite normalized_endpoint_slashes. lia.
  - rewrite normalized_endpoint_slashes. lia.
  - apply spread_head.
  - intros Hnd Hk Hno. unfold fullParams. rewrite spread_fresh; [done| |done].
    simpl. by apply NoDup_cons.
  - apply spread_index_first. intros k Hk.
    apply list_elem_of_singleton in Hk as ->. reflexivity.
Qed.

Lemma fetchFromTmdb_request_witness :
  fetchFromTmdb "movie/popular" [("page", VStr "2")] (upstream_answers (VObj [])) []
  = (Ok (VObj []),
     [Call "https://api.themoviedb.org/3/movie/popular"
           [("api_key", VStr "k3y"); ("page", VStr "2")]]).
Proof.
  exact (proj1 (fetchFromTmdb_request "movie/popular" [("page", VStr "2")]
                  (upstream_answers (VObj [])) [])).
Defined.

(** A caller parameter named by an array index comes before [api_key]. *)
Example fetchFromTmdb_index_parameter :
  (fetchFromTmdb "/discover/movie" [("2", VStr "b"); ("page", VStr "1")]
     (upstream_answers VNull) []).2
  = [Call "https://api.themoviedb.org/3/discover/movie"
          [("2", VStr "b"); ("api_key", VStr "k3y"); ("page", VStr "1")]].
Proof. reflexivity. Qed.

(** One trailing slash of the configured base URL is dropped, and a
    caller's [api_key] takes the place of the configured one. *)
Example fetchFromTmdb_corner_cases :
  fetchFromTmdb "/movie/550" [] (upstream_down "timeout") []
  = (Throw (AxiosError "timeout"),
     [Call "https://api.themoviedb.org/3/movie/550" [("api_key", VStr "k3y")]]) /\
  fetchFromTmdb "" [("query", VUndef); ("api_key", VStr "mine")] (upstream_answers VNull) []
  = (Ok VNull,
     [Call "https://api.themoviedb.org/3/" [("api_key", VStr "mine"); ("query", VUndef)]]).
Proof. split; reflexivity. Qed.

(** ** The route handlers *)

Ltac run_handler :=
  cbv beta iota zeta delta
    [serve handle
     TmdbController.health TmdbController.auth_validate TmdbController.search_collection
     TmdbController.search_company TmdbController.search_multi TmdbController.search_keyword
     MovieController.health MovieController.images MovieController.credits
     MovieController.external_ids MovieController.recommendations MovieController.reviews
     MovieController.similar MovieController.videos MovieController.watch_providers
     MovieController.search MovieController.popular MovieController.now_playing
     MovieController.top_rated MovieController.upcoming MovieController.details
     TvShowController.health TvShowController.popular TvShowController.latest
     TvShowController.airing_today TvShowController.on_the_air TvShowController.top_rated
     TvShowController.search_tv TvShowController.details TvShowController.videos
     TvShowController.watch_providers TvShowController.images TvShowController.credits
     TvShowController.reviews TvShowController.recommendations TvShowController.similar
     TvShowController.validateSeriesId
     PersonController.health PersonController.popular PersonController.search
     PersonController.movie_credits PersonController.tv_credits PersonController.images
     PersonController.external_ids PersonController.details
     App.validate
     try_catch fetchFromTmdb mbind M_bind ask axios_get_data throw lift
     res_json res_status_json res_status_send mret M_ret app fst snd].

Ltac classify_outcome :=
  first
    [ eapply upstream_rejected; eassumption
    | eapply upstream_answered; [eassumption|first [left; reflexivity|right; reflexivity]]
    | eapply answered_locally;
      first [ left; reflexivity
            | right; left; split; [reflexivity|eexists; reflexivity]
            | right; right; reflexivity ] ].

Lemma serve_outcome (r : route) (req : request) (w : world) :
  outcome r req w (serve r req w).
Proof.
  destruct r; run_handler; repeat case_match; simplify_eq; classify_outcome.
Qed.

Lemma upstream_failed_inv (r : route) (req : request) (w : world) :
  upstream_failed w (serve r req w).2 ->
  (serve r req w).1 = Ok (failure_response r req).
Proof.
  destruct (serve_outcome r req w) as [resp _|c e _|c data resp Hdata _]; simpl.
  - intros H. inversion H.
  - done.
  - intros H. inversion H as [? ? [e He]|? ? H']; subst; [|inversion H'].
    simpl in He. congruence.
Qed.

(** *** The call a handler makes, and its answer when upstream answers *)

Ltac split_admission :=
  repeat (match goal with
          | |- context [truthy ?q] => destruct (truthy q) eqn:?
          | |- context [TvShowController.digits_only ?i] =>
              destruct (TvShowController.digits_only i) eqn:?
          | |- context [to_string ?w ?q] => destruct (to_string w q) eqn:?
          | |- context [encodeURIComponent ?w ?t] =>
              destruct (encodeURIComponent w t) eqn:?
          end;
          cbn [negb]; cbv beta iota).

Ltac same_answer Hdata :=
  match goal with
  | |- context [match axios_get ?w ?u ?p with _ => _ end] =>
      let E := fresh "E" in
      let E' := fresh "E" in
      destruct (axios_get w u p) eqn:E;
      pose proof (eq_trans (eq_sym E) Hdata) as E';
      [injection E' as ->|discriminate E']
  end.

(** Every handler makes the call of [upstream_call], and no other. *)
Lemma serve_calls (r : route) (req : request) (w : world) :
  (serve r req w).2
  = match upstream_call r req w with
    | Some c => [c]
    | None => []
    end.
Proof.
  destruct r; run_handler; cbv beta iota delta [upstream_call helper_call];
    split_admission; repeat case_match; simplify_eq; reflexivity.
Qed.

(** When upstream answers the call of a handler that reads the body, the
    handler answers 200 with the shaped value, or from its [catch] block
    when shaping throws. *)
Lemma serve_answered (r : route) (s : shape) (req : request) (w : world)
    (c : call) (data : value) :
  shape_of r = Some s ->
  upstream_call r req w = Some c ->
  axios_get w (url c) (params c) = Ok data ->
  serve r req w
  = (Ok (match shaped s data with
         | Ok v => Response 200 (Json v)
         | Throw _ => failure_response r req
         end),
     [c]).
Proof.
  destruct r; intros [= <-]; run_handler;
    cbv beta iota zeta delta
      [upstream_call helper_call shaped mbind result_bind mret result_ret];
    split_admission; intros Hc; try discriminate Hc; injection Hc as <-;
    cbn [url params]; intros Hdata; same_answer Hdata;
    repeat case_match; simplify_eq; reflexivity.
Qed.

(** A handler makes no call only on a health route, or when its own check
    of the request or the building of the endpoint stops it. *)
Lemma upstream_call_unless_refused (r : route) (req : request) (w : world) :
  upstream_call r req w = None ->
  r ∈ [tmdb_health; movie_health; tv_health; person_health] \/
  (r = movie_search /\ truthy (query req) = false) \/
  (r = tv_search /\
   (truthy (query req) = false \/
    (exists e, to_string w (query req) = Throw e) \/
    (exists text e, to_string w (query req) = Ok text /\
                    encodeURIComponent w text = Throw e))) \/
  (by_series_id r = true /\ TvShowController.digits_only (path_id req) = false) \/
  (r = person_search /\ exists e, to_string w (query req) = Throw e).
Proof.
  destruct r; cbn [upstream_call]; try discriminate;
    try (intros _; left; rewrite !elem_of_cons; by auto 6);
    try (destruct (TvShowController.digits_only (path_id req)); [discriminate|];
         intros _; right; right; right; left; done).
  - destruct (truthy (query req)); [discriminate|]. intros _. right. left. done.
  - intros H. right. right. left. split; [done|].
    destruct (truthy (query req)); [|by left]. right.
    destruct (to_string w (query req)) as [text|e] eqn:Ht; [|left; by eexists].
    destruct (encodeURIComponent w text) as [enc|e] eqn:He; [discriminate|].
    right. by exists text, e.
  - destruct (to_string w (query req)) as [text|e]; [discriminate|].
    intros _. right. right. right. right. split; [done|]. by exists e.
Qed.

Lemma results_normalizer_shape (r : route) (n : normalizer) :
  results_normalizer r = Some n -> shape_of r = Some (results_shape n).
Proof. by destruct r; intros [= <-]. Qed.

Lemma answer_body_list (r : route) (n : normalizer) (ys : list value) :
  results_normalizer r = Some n -> n <> for_multi -> answer_body r ys = VArr ys.
Proof. by destruct r; intros [= <-]. Qed.

Lemma answer_body_multi (r : route) (ys : list value) :
  results_normalizer r = Some for_multi ->
  answer_body r ys = VObj [("searchResults", VArr ys)].
Proof. by destruct r. Qed.

Lemma normalize_accepted (n : normalizer) (x : value) :
  accepted n x -> exists y, normalize n x = Ok y.
Proof.
  intros (o & -> & Ho). destruct n; simpl.
  - by eexists.
  - by eexists.
  - by eexists.
  - rewrite Review_obj by auto. by eexists.
  - rewrite multi_item_obj. by eexists.
Qed.

(** C5. [/search/multi] asks upstream once and, when the answer holds raw
    items under [results], answers 200 with [{ searchResults }], the items
    mapped in order by their [media_type]: ["movie"] gives the Movie
    record, ["tv"] the TVShow record, ["person"] the Person record, and an
    item with any other tag, or none, is returned as it came. *)
Theorem multi_search_dispatch (req : request) (w : world) (d : obj) (items : list obj) :
  axios_get w (tmdbBaseUrl w +:+ "/search/multi")
    [("api_key", tmdbApiKey w); ("query", query req)] = Ok (VObj d) ->
  obj_get d "results" = VArr (VObj <$> items) ->
  exists out,
    serve tmdb_search_multi req w
    = (Ok (Response 200 (Json (VObj [("searchResults", VArr out)]))),
       [Call (tmdbBaseUrl w +:+ "/search/multi")
             [("api_key", tmdbApiKey w); ("query", query req)]]) /\
    length out = length items /\
    forall i item, items !! i = Some item ->
      let tag := obj_get item "media_type" in
      (tag = VStr "movie" -> out !! i = Some (VObj (movie_record item))) /\
      (tag = VStr "tv" -> out !! i = Some (VObj (tvshow_record item))) /\
      (tag = VStr "person" -> out !! i = Some (VObj (person_record item))) /\
      (tag <> VStr "movie" -> tag <> VStr "tv" -> tag <> VStr "person" ->
       out !! i = Some (VObj item)).
Proof.
  intros Hd Hres. exists (multi_record <$> items). split_and!.
  - rewrite (serve_answered tmdb_search_multi multi_search req w
               (Call (tmdbBaseUrl w +:+ "/search/multi")
                     [("api_key", tmdbApiKey w); ("query", query req)])
               (VObj d) eq_refl eq_refl Hd).
    unfold shaped, mbind, result_bind. cbn [get]. rewrite Hres. cbn [array_map].
    by rewrite (map_elements_pure _ multi_record) by apply multi_item_obj.
  - by rewrite length_fmap.
  - intros i item Hi tag. rewrite list_lookup_fmap, Hi. simpl.
    unfold multi_record. fold tag. split_and!.
    + intros ->. reflexivity.
    + intros ->. reflexivity.
    + intros ->. reflexivity.
    + intros Hm Ht Hp.
      destruct (TmdbController.is_str tag "movie") eqn:E1;
        [by apply is_str_true in E1|].
      destruct (TmdbController.is_str tag "tv") eqn:E2;
        [by apply is_str_true in E2|].
      destruct (TmdbController.is_str tag "person") eqn:E3;
        [by apply is_str_true in E3|].
      reflexivity.
Qed.

Lemma multi_search_dispatch_witness :
  serve tmdb_search_multi (Request "" (VStr "ann"))
    (upstream_answers
       (VObj [("results",
               VArr [VObj [("media_type", VStr "movie"); ("title", VStr "Heat")];
                     VObj [("media_type", VStr "tv"); ("name", VStr "Dark")];
                     VObj [("media_type", VStr "person"); ("name", VStr "Ann")];
                     VObj [("media_type", VStr "x"); ("name", VStr "odd")]])]))
  = (Ok (Response 200 (Json (VObj [("searchResults",
       VArr [VObj (movie_record [("media_type", VStr "movie"); ("title", VStr "Heat")]);
             VObj (tvshow_record [("media_type", VStr "tv"); ("name", VStr "Dark")]);
             VObj (person_record [("media_type", VStr "person"); ("name", VStr "Ann")]);
             VObj [("media_type", VStr "x"); ("name", VStr "odd")]])]))),
     [Call "https://api.themoviedb.org/3/search/multi"
           [("api_key", VStr "k3y"); ("query", VStr "ann")]]).
Proof.
  destruct (multi_search_dispatch (Request "" (VStr "ann"))
              (upstream_answers
                 (VObj [("results",
                   VArr [VObj [("media_type", VStr "movie"); ("title", VStr "Heat")];
                         VObj [("media_type", VStr "tv"); ("name", VStr "Dark")];
                         VObj [("media_type", VStr "person"); ("name", VStr "Ann")];
                         VObj [("media_type", VStr "x"); ("name", VStr "odd")]])]))
              [("results",
                VArr [VObj [("media_type", VStr "movie"); ("title", VStr "Heat")];
                      VObj [("media_type", VStr "tv"); ("name", VStr "Dark")];
                      VObj [("media_type", VStr "person"); ("name", VStr "Ann")];
                      VObj [("media_type", VStr "x"); ("name", VStr "odd")]])]
              [[("media_type", VStr "movie"); ("title", VStr "Heat")];
               [("media_type", VStr "tv"); ("name", VStr "Dark")];
               [("media_type", VStr "person"); ("name", VStr "Ann")];
               [("media_type", VStr "x"); ("name", VStr "odd")]])
    as (out & Hout & Hlen & Hi).
  - reflexivity.
  - reflexivity.
  - etrans; [exact Hout|]. do 7 f_equal.
    destruct out as [|y0 [|y1 [|y2 [|y3 [|]]]]]; try discriminate Hlen.
    pose proof (proj1 (Hi 0 _ eq_refl) eq_refl : Some y0 = _) as H0.
    pose proof (proj1 (proj2 (Hi 1 _ eq_refl)) eq_refl : Some y1 = _) as H1.
    pose proof (proj1 (proj2 (proj2 (Hi 2 _ eq_refl))) eq_refl : Some y2 = _) as H2.
    assert (H3 : Some y3 = Some (VObj [("media_type", VStr "x"); ("name", VStr "odd")])).
    { apply (Hi 3 _ eq_refl); discriminate. }
    injection H0 as ->. injection H1 as ->. injection H2 as ->. injection H3 as ->.
    reflexivity.
Defined.

(** C4, as stated, fails on an array with an element the constructor
    throws on: a review without [author_details], or [null] in a list of
    movies.  The handler then answers 500 and no array is returned. *)
Lemma results_with_a_bad_element_give_500 :
  serve movie_reviews (Request "550" VUndef)
    (upstream_answers
       (VObj [("results", VArr [VObj [("author", VStr "ann"); ("content", VStr "fine")]])]))
  = (Ok (Response 500 (Json (error_obj "Failed to fetch movie reviews"))),
     [Call "https://api.themoviedb.org/3/movie/550/reviews" [("api_key", VStr "k3y")]]) /\
  serve movie_popular (Request "" VUndef) (upstream_answers (VObj [("results", VArr [VNull])]))
  = (Ok (Response 500 (Json (error_obj "Failed to fetch popular movies"))),
     [Call "https://api.themoviedb.org/3/movie/popular" [("api_key", VStr "k3y")]]) /\
  ~ (exists ys,
       (serve movie_reviews (Request "550" VUndef)
          (upstream_answers
             (VObj [("results",
                     VArr [VObj [("author", VStr "ann"); ("content", VStr "fine")]])]))).1
       = Ok (Response 200 (Json (VArr ys))) /\ length ys = 1).
Proof.
  split_and!; [reflexivity..|]. intros (ys & Hys & _). discriminate Hys.
Qed.

(** C4 (amended). On every route that maps over [data.results], when the
    upstream body holds under [results] an array of raw objects (on the
    review routes: objects whose [author_details] is present and not
    [null]), the handler answers 200 with the normalized array: it has the
    length of the input and its element at every index is the
    normalization of the input element at that index. *)
Theorem results_normalized_elementwise (r : route) (n : normalizer) (req : request)
    (w : world) (c : call) (d : obj) (xs : list value) :
  results_normalizer r = Some n ->
  upstream_call r req w = Some c ->
  axios_get w (url c) (params c) = Ok (VObj d) ->
  obj_get d "results" = VArr xs ->
  (forall x, x ∈ xs -> accepted n x) ->
  exists ys,
    serve r req w = (Ok (Response 200 (Json (answer_body r ys))), [c]) /\
    length ys = length xs /\
    forall i, Ok <$> ys !! i = normalize n <$> xs !! i.
Proof.
  intros Hn Hc Hd Hres Hacc.
  destruct (map_elements_total (normalize n) xs) as [ys Hys].
  { intros x Hx. by apply normalize_accepted, Hacc. }
  assert (Harr : array_map (normalize n) (VArr xs) = Ok (VArr ys)).
  { simpl. by rewrite Hys. }
  exists ys. split.
  - rewrite (serve_answered _ _ _ _ _ _ (results_normalizer_shape _ _ Hn) Hc Hd).
    destruct n; unfold results_shape, shaped, mbind, result_bind; cbn [get];
      rewrite Hres; cbn [normalize] in Harr; rewrite Harr; cbn [mret result_ret].
    1-4: by erewrite answer_body_list by done.
    by rewrite answer_body_multi.
  - destruct (array_map_elementwise _ _ _ Harr) as (ys' & [= <-] & Hlen & Hi). done.
Qed.

Lemma results_normalized_elementwise_witness :
  exists ys,
    serve tv_reviews (Request "1399" VUndef)
      (upstream_answers
         (VObj [("results",
                 VArr [VObj [("author", VStr "ann"); ("author_details", VObj [])];
                       VObj [("author", VStr "bob"); ("author_details", VObj [])];
                       VObj [("author", VStr "ann"); ("author_details", VObj [])]])]))
    = (Ok (Response 200 (Json (VArr ys))),
       [Call "https://api.themoviedb.org/3/tv/1399/reviews" [("api_key", VStr "k3y")]]) /\
    length ys = 3.
Proof.
  destruct (results_normalized_elementwise tv_reviews for_review (Request "1399" VUndef)
              (upstream_answers
                 (VObj [("results",
                   VArr [VObj [("author", VStr "ann"); ("author_details", VObj [])];
                         VObj [("author", VStr "bob"); ("author_details", VObj [])];
                         VObj [("author", VStr "ann"); ("author_details", VObj [])]])]))
              (Call "https://api.themoviedb.org/3/tv/1399/reviews" [("api_key", VStr "k3y")])
              [("results",
                VArr [VObj [("author", VStr "ann"); ("author_details", VObj [])];
                      VObj [("author", VStr "bob"); ("author_details", VObj [])];
                      VObj [("author", VStr "ann"); ("author_details", VObj [])]])]
              [VObj [("author", VStr "ann"); ("author_details", VObj [])];
               VObj [("author", VStr "bob"); ("author_details", VObj [])];
               VObj [("author", VStr "ann"); ("author_details", VObj [])]])
    as (ys & Hys & Hlen & _).
  - reflexivity.
  - reflexivity.
  - reflexivity.
  - reflexivity.
  - intros x Hx.
    repeat (apply elem_of_cons in Hx as [->|Hx];
            [eexists; split; [reflexivity|intros _; split; discriminate]|]).
    by apply elem_of_nil in Hx.
  - exists ys. split; [exact Hys|exact Hlen].
Defined.

(** No exception leaves a handler. *)
Lemma handlers_always_answer (r : route) (req : request) (w : world) :
  exists resp, (serve r req w).1 = Ok resp.
Proof. destruct (serve_outcome r req w); by eexists. Qed.

(** A handler calls upstream at most once. *)
Lemma at_most_one_upstream_call (r : route) (req : request) (w : world) :
  length (serve r req w).2 <= 1.
Proof. destruct (serve_outcome r req w); simpl; lia. Qed.

(** C6. A movie search or TV search whose [query] is missing or empty is
    answered with status 400 and [{ error: 'Query parameter is required' }],
    and no upstream call is made. *)
Theorem search_without_query_is_400 (req : request) (w : world) :
  no_query req ->
  serve movie_search req w
  = (Ok (Response 400 (Json (error_obj "Query parameter is required"))), []) /\
  serve tv_search req w
  = (Ok (Response 400 (Json (error_obj "Query parameter is required"))), []).
Proof.
  intros Hq. run_handler. by destruct Hq as [-> | ->].
Qed.

Lemma search_without_query_is_400_witness :
  serve movie_search (Request "" (VStr "")) (upstream_answers (VObj [("results", VArr [])]))
  = (Ok (Response 400 (Json (error_obj "Query parameter is required"))), []) /\
  serve tv_search (Request "" (VStr "")) (upstream_answers (VObj [("results", VArr [])]))
  = (Ok (Response 400 (Json (error_obj "Query parameter is required"))), []).
Proof.
  apply search_without_query_is_400. right. reflexivity.
Defined.

(** With a query the same two handlers do call upstream; the person search
    calls it even without one. *)
Example search_with_query_calls_upstream :
  serve movie_search (Request "" (VStr "heat")) (upstream_answers (VObj [("results", VArr [])]))
  = (Ok (Response 200 (Json (VArr []))),
     [Call "https://api.themoviedb.org/3/search/movie"
           [("api_key", VStr "k3y"); ("query", VStr "heat")]]) /\
  serve person_search (Request "" (VStr "")) (upstream_answers (VObj [("results", VArr [])]))
  = (Ok (Response 200 (Json (VArr []))),
     [Call "https://api.themoviedb.org/3/search/person?query=" [("api_key", VStr "k3y")]]) /\
  serve person_search (Request "" VUndef) (upstream_down "socket hang up")
  = (Ok (Response 500 (Json (error_obj "Failed to perform search"))),
     [Call "https://api.themoviedb.org/3/search/person?query=undefined"
           [("api_key", VStr "k3y")]]).
Proof. repeat split. Qed.

(** The person search has no guard: whatever [query] converts to as a
    string is put into the URL and upstream is called; when the conversion
    throws, no call is made. *)
Lemma person_search_always_calls (req : request) (w : world) :
  (serve person_search req w).2
  = match to_string w (query req) with
    | Ok text =>
        [Call (tmdbBaseUrl w +:+ "/search/person?query=" +:+ text)
              [("api_key", tmdbApiKey w)]]
    | Throw _ => []
    end.
Proof. run_handler. repeat case_match; simplify_eq; reflexivity. Qed.

(** The health routes answer 200 without an upstream call. *)
Lemma health_routes (req : request) (w : world) :
  serve tmdb_health req w
  = (Ok (Response 200 (Json (message_obj "TMDb API is running"))), []) /\
  serve movie_health req w
  = (Ok (Response 200 (Json (message_obj "Movie API is running"))), []) /\
  serve tv_health req w
  = (Ok (Response 200 (Json (message_obj "TV Show API is running"))), []) /\
  serve person_health req w
  = (Ok (Response 200 (Json (message_obj "Person API is running"))), []).
Proof. repeat split. Qed.

(** A list route returns the records of the raw objects under [results],
    in their order. *)
Lemma movie_popular_results (req : request) (w : world) (data : obj) (rs : list obj) :
  axios_get w (tmdbBaseUrl w +:+ "/movie/popular") [("api_key", tmdbApiKey w)] = Ok (VObj data) ->
  obj_get data "results" = VArr (VObj <$> rs) ->
  (serve movie_popular req w).1
  = Ok (Response 200 (Json (VArr ((fun r => VObj (movie_record r)) <$> rs)))).
Proof.
  intros Hdata Hres. run_handler.
  change (normalized_endpoint "/movie/popular") with "/movie/popular".
  change (spread [("api_key", tmdbApiKey w)] []) with [("api_key", tmdbApiKey w)].
  rewrite Hdata. simpl get. rewrite Hres. simpl array_map.
  by rewrite (map_elements_pure _ (fun r => VObj (movie_record r))).
Qed.

(** [GET /movies/550] with upstream answering
    [{id: 550, title: "Fight Club", vote_average: 8.4, genre_ids: [18]}]
    (8.4 is the double 0x10CCCCCCCCCCCD * 2^-49). *)
Example movie_details_550 :
  let fight_club :=
    [("id", VNum (S754_finite false 550 0)); ("title", VStr "Fight Club");
     ("vote_average", VNum (S754_finite false 4728779608739021 (-49)));
     ("genre_ids", VArr [VNum (S754_finite false 18 0)])] in
  let w :=
    {| TMDB_API_KEY := Some "k3y";
       TMDB_BASE_URL := "https://api.themoviedb.org/3";
       axios_get := fun _ _ => Ok (VObj fight_club);
       encodeURIComponent := fun s => Ok s;
       Number := fun _ => S754_finite false 550 0;
       Number_toString := fun _ => "550" |} in
  serve movie_details (Request "550" VUndef) w
  = (Ok (Response 200 (Json (VObj
       [("id", VNum (S754_finite false 550 0)); ("mediaType", VStr "Movie");
        ("popularity", VUndef); ("overview", VUndef); ("posterPath", VUndef);
        ("backdropPath", VUndef); ("title", VStr "Fight Club");
        ("originalTitle", VUndef); ("releaseDate", VUndef);
        ("genreIds", VArr [VNum (S754_finite false 18 0)]);
        ("voteAverage", VNum (S754_finite false 4728779608739021 (-49)));
        ("voteCount", VUndef)]))),
     [Call "https://api.themoviedb.org/3/movie/550" [("api_key", VStr "k3y")]]).
Proof. reflexivity. Qed.

(** C8, as stated, fails for [/auth/validate]: when its upstream call is
    rejected it answers 401, not 500. *)
Lemma auth_validate_failure_is_401 :
  upstream_failed (upstream_down "Request failed with status code 401")
    (serve tmdb_auth_validate (Request "" VUndef)
       (upstream_down "Request failed with status code 401")).2 /\
  (serve tmdb_auth_validate (Request "" VUndef)
     (upstream_down "Request failed with status code 401")).1
  = Ok (Response 401 (Json (error_obj "Invalid API Key"))).
Proof.
  split; [|reflexivity]. apply Exists_cons_hd. by eexists.
Qed.

(** C8 (amended). For every route handler other than [/auth/validate] and
    the entry script's [/validate]: if its upstream call throws, whatever
    the error, the handler returns (no exception escapes) status 500 with
    the body [{ error: msg }], where [msg] is the text fixed in the
    handler, followed by the series id for the routes under
    [/:series_id]; so the response is the same for every error. *)
Theorem upstream_failure_is_500 (r : route) (req : request) (w : world) :
  r <> tmdb_auth_validate -> r <> app_validate ->
  upstream_failed w (serve r req w).2 ->
  (serve r req w).1 = Ok (Response 500 (Json (error_obj (failure_message r req)))) /\
  (forall w', upstream_failed w' (serve r req w').2 ->
              (serve r req w').1 = (serve r req w).1).
Proof.
  intros H1 H2 Hf.
  assert (Hr : failure_response r req
               = Response 500 (Json (error_obj (failure_message r req))))
    by by destruct r.
  split.
  - by rewrite (upstream_failed_inv _ _ _ Hf), Hr.
  - intros w' Hf'. by rewrite (upstream_failed_inv _ _ _ Hf), (upstream_failed_inv _ _ _ Hf').
Qed.

Lemma upstream_failure_is_500_witness :
  (serve tv_reviews (Request "1399" VUndef) (upstream_down "connect ECONNREFUSED")).1
  = Ok (Response 500 (Json (error_obj "Failed to fetch reviews for TV show with id 1399"))).
Proof.
  refine (proj1 (upstream_failure_is_500 tv_reviews (Request "1399" VUndef)
                   (upstream_down "connect ECONNREFUSED") _ _ _)).
  - discriminate.
  - discriminate.
  - apply Exists_cons_hd. by eexists.
Defined.

(** The two routes left out answer in their own way. *)
Lemma validate_routes_on_failure (req : request) (w : world) :
  (upstream_failed w (serve tmdb_auth_validate req w).2 ->
   (serve tmdb_auth_validate req w).1
   = Ok (Response 401 (Json (error_obj "Invalid API Key")))) /\
  (upstream_failed w (serve app_validate req w).2 ->
   (serve app_validate req w).1
   = Ok (Response 500 (Text "API key is invalid or TMDB service is unavailable."))).
Proof. split; intros Hf; by rewrite (upstream_failed_inv _ _ _ Hf). Qed.

(** An exception while shaping the answer is caught by the same block. *)
Example shaping_error_is_500 :
  serve movie_reviews (Request "550" VUndef)
    (upstream_answers (VObj [("results", VArr [VObj [("author", VStr "ann")]])]))
  = (Ok (Response 500 (Json (error_obj "Failed to fetch movie reviews"))),
     [Call "https://api.themoviedb.org/3/movie/550/reviews" [("api_key", VStr "k3y")]]) /\
  serve tv_popular (Request "" VUndef) (upstream_answers (VStr "<html>"))
  = (Ok (Response 500 (Json (error_obj "Failed to fetch popular TV shows"))),
     [Call "https://api.themoviedb.org/3/tv/popular" [("api_key", VStr "k3y")]]).
Proof. split; reflexivity. Qed.

(** C9, as stated, fails twice: [/auth/validate] answers a rejected
    credential with status 401, and the entry script's [/validate] answers
    a failure with a plain-text body. *)
Lemma error_status_401_and_text_body :
  (exists resp,
     (serve tmdb_auth_validate (Request "" VUndef) (upstream_down "401")).1 = Ok resp /\
     is_error resp /\ status resp <> 400 /\ status resp <> 500) /\
  (exists resp,
     (serve app_validate (Request "" VUndef) (upstream_down "401")).1 = Ok resp /\
     is_error resp /\ ~ error_body (payload resp)).
Proof.
  split; eexists; (split; [reflexivity|]); unfold is_error; simpl.
  - split_and!; [lia|discriminate..].
  - split; [lia|]. intros [msg Hmsg]. discriminate Hmsg.
Qed.

(** C9 (amended). Every handler returns a response, and an error response
    is one of: status 400 with an [{ error: string }] body; status 500
    with an [{ error: string }] body; from [/auth/validate] only, status
    401 with [{ error: 'Invalid API Key' }]; from the entry script's
    [/validate] only, status 500 with a plain-text body. *)
Theorem error_responses (r : route) (req : request) (w : world) :
  exists resp,
    (serve r req w).1 = Ok resp /\
    (is_error resp ->
     (status resp = 400 /\ error_body (payload resp)) \/
     (status resp = 500 /\ error_body (payload resp) /\
      r <> tmdb_auth_validate /\ r <> app_validate) \/
     (r = tmdb_auth_validate /\ resp = Response 401 (Json (error_obj "Invalid API Key"))) \/
     (r = app_validate /\
      resp = Response 500 (Text "API key is invalid or TMDB service is unavailable."))).
Proof.
  assert (Hfail : let resp := failure_response r req in
            (status resp = 500 /\ error_body (payload resp) /\
             r <> tmdb_auth_validate /\ r <> app_validate) \/
            (r = tmdb_auth_validate /\
             resp = Response 401 (Json (error_obj "Invalid API Key"))) \/
            (r = app_validate /\
             resp = Response 500 (Text "API key is invalid or TMDB service is unavailable."))).
  { destruct r; simpl;
      first [ left; split_and!; [reflexivity|by eexists|discriminate..]
            | right; left; split; reflexivity
            | right; right; split; reflexivity ]. }
  unfold is_error.
  destruct (serve_outcome r req w) as [resp Hresp|c e _|c data resp _ Hresp];
    eexists; (split; [reflexivity|]); intros Herr.
  - destruct Hresp as [H200|[H400| ->]]; [lia|by left|by right].
  - by right.
  - destruct Hresp as [H200| ->]; [lia|by right].
Qed.

Lemma error_responses_witness :
  exists resp,
    (serve tv_details (Request "12a" VUndef) (upstream_answers VNull)).1 = Ok resp /\
    (is_error resp ->
     (status resp = 400 /\ error_body (payload resp)) \/
     (status resp = 500 /\ error_body (payload resp) /\
      tv_details <> tmdb_auth_validate /\ tv_details <> app_validate) \/
     (tv_details = tmdb_auth_validate /\
      resp = Response 401 (Json (error_obj "Invalid API Key"))) \/
     (tv_details = app_validate /\
      resp = Response 500 (Text "API key is invalid or TMDB service is unavailable."))).
Proof.
  exact (error_responses tv_details (Request "12a" VUndef) (upstream_answers VNull)).
Defined.

(** A series id that is not all digits is refused before any call. *)
Example series_id_is_validated :
  serve tv_details (Request "12a" VUndef) (upstream_answers VNull)
  = (Ok (Response 400 (Json (error_obj "Invalid series_id format. It must be a number."))),
     []) /\
  serve tv_details (Request "" VUndef) (upstream_answers VNull)
  = (Ok (Response 400 (Json (error_obj "Invalid series_id format. It must be a number."))),
     []) /\
  serve tv_details (Request "1399" VUndef) (upstream_answers (VObj [("name", VStr "GoT")]))
  = (Ok (Response 200 (Json (VObj (tvshow_record [("name", VStr "GoT")])))),
     [Call "https://api.themoviedb.org/3/tv/1399" [("api_key", VStr "k3y")]]).
Proof. repeat split. Qed.

(** * Further properties of the code *)

(** ** models/*.js on their edge cases *)

(** X1. [new Media(r)] keeps a truthy [media_type] and puts ['unknown']
    in place of a falsy one (absent, [null], [''], [0], [false]); its
    [mediaType] is therefore always truthy. *)
Theorem Media_mediaType_default (r : obj) :
  exists m,
    new Media (VObj r) = Ok (VObj m) /\
    (truthy (obj_get r "media_type") = true ->
     obj_get m "mediaType" = obj_get r "media_type") /\
    (truthy (obj_get r "media_type") = false ->
     obj_get m "mediaType" = VStr "unknown") /\
    truthy (obj_get m "mediaType") = true.
Proof.
  eexists. split; [reflexivity|].
  change (obj_get _ "mediaType")
    with (logical_or (obj_get r "media_type") (VStr "unknown")).
  unfold logical_or.
  destruct (truthy (obj_get r "media_type")) eqn:Ht; split_and!; done.
Qed.

(** X2. In a review built from a raw object whose [author_details] is
    there, [rating] is the raw rating when that is truthy and [0] in every
    other case ([null], [false], [''], [0], [-0], [NaN], absent); it is
    never [undefined] or [null]. *)
Theorem Review_rating_or_zero (r : obj) :
  author_details_present r ->
  exists m,
    new Review (VObj r) = Ok (VObj m) /\
    (truthy (author_details_rating r) = true ->
     obj_get m "rating" = author_details_rating r) /\
    (truthy (author_details_rating r) = false -> obj_get m "rating" = zero) /\
    obj_get m "rating" <> VUndef /\ obj_get m "rating" <> VNull.
Proof.
  intros Hp. exists (review_record r). split; [by apply Review_obj|].
  change (obj_get (review_record r) "rating")
    with (logical_or (author_details_rating r) zero).
  unfold logical_or.
  destruct (truthy (author_details_rating r)) eqn:Ht; split_and!; try done.
  - intros Hu. by rewrite Hu in Ht.
  - intros Hn. by rewrite Hn in Ht.
Qed.

Lemma Review_rating_or_zero_witness :
  exists m,
    new Review (VObj [("author_details", VObj [("rating", VNull)])]) = Ok (VObj m) /\
    obj_get m "rating" = zero.
Proof.
  destruct (Review_rating_or_zero [("author_details", VObj [("rating", VNull)])])
    as (m & Hm & _ & Hzero & _).
  - split; discriminate.
  - exists m. split; [exact Hm|]. by apply Hzero.
Defined.

Lemma new_Movie_value (data : value) :
  data <> VUndef -> data <> VNull ->
  new Movie data = Ok (VObj (movie_record (raw_props data))).
Proof. by destruct data. Qed.

Lemma new_TVShow_value (data : value) :
  data <> VUndef -> data <> VNull ->
  new TVShow data = Ok (VObj (tvshow_record (raw_props data))).
Proof. by destruct data. Qed.

Lemma new_Person_value (data : value) :
  data <> VUndef -> data <> VNull ->
  new Person data = Ok (VObj (person_record (raw_props data))).
Proof. by destruct data. Qed.

(** X3. [Movie], [TVShow] and [Person] throw a [TypeError] exactly on
    [undefined] and [null]; on any other value that is not an object (a
    string, a number, a boolean, an array) they build the record they
    build on the empty object.  [Review] throws on every value that is not
    an object. *)
Theorem constructors_on_any_value (data : value) :
  (data = VUndef \/ data = VNull ->
   (exists msg, new Movie data = Throw (TypeError msg)) /\
   (exists msg, new TVShow data = Throw (TypeError msg)) /\
   (exists msg, new Person data = Throw (TypeError msg))) /\
  (data <> VUndef -> data <> VNull ->
   new Movie data = Ok (VObj (movie_record (raw_props data))) /\
   new TVShow data = Ok (VObj (tvshow_record (raw_props data))) /\
   new Person data = Ok (VObj (person_record (raw_props data)))) /\
  ((forall o, data <> VObj o) -> exists msg, new Review data = Throw (TypeError msg)).
Proof.
  split_and!.
  - intros [-> | ->]; split_and!; by eexists.
  - intros Hu Hn. auto using new_Movie_value, new_TVShow_value, new_Person_value.
  - intros Ho. destruct data; try (by eexists). by destruct (Ho props).
Qed.

Lemma constructors_on_any_value_witness :
  new Person (VStr "<html>") = Ok (VObj (person_record [])).
Proof.
  apply (constructors_on_any_value (VStr "<html>")); discriminate.
Defined.

(** X4. The multi-search callback is idempotent: applied to what it
    returned, it returns it again (a record it built has no [media_type],
    so it is not dispatched a second time). *)
Theorem multi_item_idempotent (item y : value) :
  TmdbController.multi_item item = Ok y -> TmdbController.multi_item y = Ok y.
Proof.
  destruct item as [| |b|n|s|xs|o]; try discriminate; try (by intros [= <-]).
  rewrite multi_item_obj. unfold multi_record.
  destruct (TmdbController.is_str (obj_get o "media_type") "movie") eqn:E1;
    [by intros [= <-]|].
  destruct (TmdbController.is_str (obj_get o "media_type") "tv") eqn:E2;
    [by intros [= <-]|].
  destruct (TmdbController.is_str (obj_get o "media_type") "person") eqn:E3;
    [by intros [= <-]|].
  intros [= <-]. rewrite multi_item_obj. unfold multi_record.
  by rewrite E1, E2, E3.
Qed.

Lemma multi_item_idempotent_witness :
  TmdbController.multi_item
    (VObj (tvshow_record [("media_type", VStr "tv"); ("name", VStr "Dark")]))
  = Ok (VObj (tvshow_record [("media_type", VStr "tv"); ("name", VStr "Dark")])).
Proof.
  apply (multi_item_idempotent (VObj [("media_type", VStr "tv"); ("name", VStr "Dark")])).
  reflexivity.
Defined.

(** [arr.map(f)] gives no partial result: when [f] returns on the
    elements before [x] and throws on [x], the whole call throws that
    exception, whatever follows [x]. *)
Theorem array_map_first_failure (f : value -> result value)
    (pre post : list value) (x : value) (e : exn) :
  (forall p, p ∈ pre -> exists y, f p = Ok y) ->
  f x = Throw e ->
  array_map f (VArr (pre ++ x :: post)) = Throw e.
Proof.
  intros Hpre Hx. simpl. induction pre as [|p pre IH]; simpl.
  - by rewrite Hx.
  - destruct (Hpre p) as [y ->]; [apply list_elem_of_here|]. simpl.
    destruct (map_elements f (pre ++ x :: post)) as [ys|e'] eqn:Hm; simpl.
    + exfalso. assert (Hf : VArr <$> Ok ys = Throw e); [|discriminate Hf].
      apply IH. intros q Hq. apply Hpre. by apply list_elem_of_further.
    + assert (Hf : VArr <$> Throw e' = Throw e); [|by injection Hf as ->].
      apply IH. intros q Hq. apply Hpre. by apply list_elem_of_further.
Qed.

Lemma array_map_first_failure_witness :
  array_map (new Review)
    (VArr [VObj [("author", VStr "ann"); ("author_details", VObj [])];
           VObj [("author", VStr "bob")];
           VNull])
  = Throw (TypeError "Cannot read properties of undefined (reading 'rating')").
Proof.
  apply (array_map_first_failure (new Review)
           [VObj [("author", VStr "ann"); ("author_details", VObj [])]] [VNull]
           (VObj [("author", VStr "bob")])).
  - intros p Hp. apply list_elem_of_singleton in Hp as ->. by eexists.
  - reflexivity.
Defined.

(** ** helpers/tmdbHelper.js: the URL and the parameters *)

Lemma fetchFromTmdb_run (endpoint : string) (ps : obj) (w : world) (log : list call) :
  fetchFromTmdb endpoint ps w log
  = (axios_get w (tmdbBaseUrl w +:+ normalized_endpoint endpoint)
       (spread [("api_key", tmdbApiKey w)] ps),
     log ++ [Call (tmdbBaseUrl w +:+ normalized_endpoint endpoint)
               (spread [("api_key", tmdbApiKey w)] ps)]).
Proof.
  unfold fetchFromTmdb, try_catch, mbind, M_bind, ask, axios_get_data, throw, mret, M_ret.
  by destruct (axios_get w _ _).
Qed.

Lemma endsWith_slash_snoc (b : string) : endsWith_slash (b +:+ "/") = true.
Proof.
  induction b as [|c b IH]; [reflexivity|].
  change (String c b +:+ "/") with (String c (b +:+ "/")).
  destruct b as [|c' b]; [reflexivity|exact IH].
Qed.

Lemma slice_0_m1_snoc (b : string) : slice_0_m1 (b +:+ "/") = b.
Proof.
  induction b as [|c b IH]; [reflexivity|].
  change (String c b +:+ "/") with (String c (b +:+ "/")).
  destruct b as [|c' b]; [reflexivity|].
  change (slice_0_m1 (String c (String c' b +:+ "/")))
    with (String c (slice_0_m1 (String c' b +:+ "/"))).
  by rewrite IH.
Qed.

Lemma endsWith_slash_slice (s : string) :
  endsWith_slash s = true -> s = slice_0_m1 s +:+ "/".
Proof.
  induction s as [|c s IH]; [discriminate|].
  destruct s as [|c' s].
  - simpl. intros Hc. by apply Ascii.eqb_eq in Hc as ->.
  - intros Hs. change (String c (String c' s) = String c (slice_0_m1 (String c' s) +:+ "/")).
    f_equal. by apply IH.
Qed.

(** X5. The URL does not depend on how the slash between base and
    endpoint was written: with the base configured as [b] or [b/] and the
    endpoint passed as [e] or [/e], the request goes to [b/e]. *)
Theorem request_url_canonical (w : world) (b e endpoint : string) (ps : obj)
    (log : list call) :
  endsWith_slash b = false -> startsWith_slash e = false ->
  TMDB_BASE_URL w = b \/ TMDB_BASE_URL w = b +:+ "/" ->
  endpoint = e \/ endpoint = "/" +:+ e ->
  (fetchFromTmdb endpoint ps w log).2
  = log ++ [Call (b +:+ "/" +:+ e) (spread [("api_key", tmdbApiKey w)] ps)].
Proof.
  intros Hb He Hbase Hep. rewrite fetchFromTmdb_run. simpl.
  assert (tmdbBaseUrl w = b) as ->.
  { unfold tmdbBaseUrl. destruct Hbase as [-> | ->].
    - by rewrite Hb.
    - by rewrite endsWith_slash_snoc, slice_0_m1_snoc. }
  assert (normalized_endpoint endpoint = "/" +:+ e) as ->; [|done].
  unfold normalized_endpoint. destruct Hep as [-> | ->]; [by rewrite He|done].
Qed.

Lemma request_url_canonical_witness :
  (fetchFromTmdb "/movie/550" [] (upstream_down "timeout") []).2
  = [Call "https://api.themoviedb.org/3/movie/550" [("api_key", VStr "k3y")]].
Proof.
  apply (request_url_canonical (upstream_down "timeout")
           "https://api.themoviedb.org/3" "movie/550" "/movie/550" [] []).
  - reflexivity.
  - reflexivity.
  - right. reflexivity.
  - right. reflexivity.
Defined.

Lemma spread_lookup (init ps : obj) (k : string) :
  NoDup (keys ps) ->
  obj_get (spread init ps) k
  = if bool_decide (k ∈ keys ps) then obj_get ps k else obj_get init k.
Proof.
  unfold spread, keys. revert init.
  induction ps as [|[k1 v1] ps IH]; intros init Hnd; cbn [fold_left fst snd].
  - case_bool_decide as Hk; [by apply elem_of_nil in Hk|done].
  - rewrite fmap_cons in *. cbn [fst] in *.
    apply NoDup_cons in Hnd as [Hk1 Hnd]. rewrite (IH _ Hnd).
    cbn [obj_get]. destruct (String.eqb_spec k1 k) as [->|Hne].
    + rewrite (bool_decide_eq_false_2 _ Hk1), obj_get_set_eq.
      rewrite bool_decide_eq_true_2; [done|apply list_elem_of_here].
    + destruct (decide (k ∈ ps.*1)) as [Hin|Hin].
      * rewrite (bool_decide_eq_true_2 _ Hin).
        rewrite bool_decide_eq_true_2; [done|by apply list_elem_of_further].
      * rewrite (bool_decide_eq_false_2 _ Hin), obj_get_set_ne by done.
        rewrite bool_decide_eq_false_2; [done|].
        intros Hk. apply elem_of_cons in Hk as [Hk|Hk]; [by destruct Hne|done].
Qed.

(** X6. The parameters sent upstream, for a caller's object [ps] (its
    keys distinct): every caller parameter arrives with the caller's
    value, also one named [api_key], which then replaces the configured
    key; the configured key is sent when the caller names none; and
    nothing else is sent. *)
Theorem request_params_lookup (endpoint : string) (ps : obj) (w : world)
    (log : list call) :
  NoDup (keys ps) ->
  exists c,
    (fetchFromTmdb endpoint ps w log).2 = log ++ [c] /\
    (forall k, k ∈ keys ps -> obj_get (params c) k = obj_get ps k) /\
    ("api_key" ∉ keys ps -> obj_get (params c) "api_key" = tmdbApiKey w) /\
    (forall k, k ∉ keys ps -> k <> "api_key" -> obj_get (params c) k = VUndef).
Proof.
  intros Hnd. rewrite fetchFromTmdb_run. eexists. split; [reflexivity|].
  cbn [params]. split_and!.
  - intros k Hk. rewrite spread_lookup by done. by rewrite bool_decide_eq_true_2.
  - intros Hk. rewrite spread_lookup by done. rewrite bool_decide_eq_false_2 by done.
    reflexivity.
  - intros k Hk Hne. rewrite spread_lookup by done.
    rewrite bool_decide_eq_false_2 by done.
    cbn [obj_get]. destruct (String.eqb_spec "api_key" k) as [Heq|_]; [|done].
    by destruct Hne.
Qed.

Lemma request_params_lookup_witness :
  exists c,
    (fetchFromTmdb "/discover/movie" [("api_key", VStr "mine"); ("page", VStr "2")]
       (upstream_answers VNull) []).2 = [c] /\
    obj_get (params c) "api_key" = VStr "mine" /\
    obj_get (params c) "page" = VStr "2".
Proof.
  destruct (request_params_lookup "/discover/movie"
              [("api_key", VStr "mine"); ("page", VStr "2")] (upstream_answers VNull) [])
    as (c & Hc & Hin & _).
  - apply NoDup_cons. split; [|apply NoDup_singleton].
    intros H. apply list_elem_of_singleton in H. discriminate H.
  - exists c. split; [exact Hc|]. split.
    + apply (Hin "api_key"). apply list_elem_of_here.
    + apply (Hin "page"). apply list_elem_of_further, list_elem_of_here.
Defined.

(** ** The handlers when upstream answers *)

(** The same, for a caller who knows the log of the request. *)
Lemma serve_shaped (r : route) (s : shape) (req : request) (w : world)
    (c : call) (data : value) :
  shape_of r = Some s ->
  (serve r req w).2 = [c] ->
  axios_get w (url c) (params c) = Ok data ->
  (serve r req w).1
  = Ok (match shaped s data with
        | Ok v => Response 200 (Json v)
        | Throw _ => failure_response r req
        end).
Proof.
  intros Hs Hc Hd. rewrite serve_calls in Hc.
  destruct (upstream_call r req w) as [c'|] eqn:Hcall; [|discriminate Hc].
  injection Hc as ->. by rewrite (serve_answered _ _ _ _ _ _ Hs Hcall Hd).
Qed.

Lemma failure_response_500 (r : route) (s : shape) (req : request) :
  shape_of r = Some s ->
  failure_response r req = Response 500 (Json (error_obj (failure_message r req))).
Proof. by destruct r. Qed.

(** X7. No handler calls upstream more than once for a request. *)
Theorem one_upstream_call_at_most (r : route) (req : request) (w : world) :
  length (serve r req w).2 <= 1.
Proof. apply at_most_one_upstream_call. Qed.

(** X8. The routes that pass the upstream body on (the collection, company
    and keyword searches, the images and external ids of a movie and of a
    person) call upstream for every request, and when it answers they
    answer 200 with exactly the body it sent, whatever that is. *)
Theorem passthrough_routes_return_body (r : route) (req : request) (w : world) :
  shape_of r = Some whole_body ->
  exists c,
    upstream_call r req w = Some c /\
    forall data, axios_get w (url c) (params c) = Ok data ->
      serve r req w = (Ok (Response 200 (Json data)), [c]).
Proof.
  intros Hs.
  assert (Hc : exists c, upstream_call r req w = Some c)
    by (destruct r; try discriminate Hs; by eexists).
  destruct Hc as [c Hc]. exists c. split; [done|]. intros data Hd.
  by rewrite (serve_answered _ _ _ _ _ _ Hs Hc Hd).
Qed.

Lemma passthrough_routes_return_body_witness :
  serve person_images (Request "287" VUndef) (upstream_answers VNull)
  = (Ok (Response 200 (Json VNull)),
     [Call "https://api.themoviedb.org/3/person/287/images" [("api_key", VStr "k3y")]]).
Proof.
  destruct (passthrough_routes_return_body person_images (Request "287" VUndef)
              (upstream_answers VNull)) as (c & Hc & Hserve).
  - reflexivity.
  - injection Hc as <-. apply Hserve. reflexivity.
Defined.

(** X9. The videos and watch-provider routes (movie and TV) answer 200
    with [data.results], and the TV images route with [data.backdrops],
    as found in the upstream object: a missing field gives a 200 with
    [undefined], not an error. *)
Theorem field_routes_return_field (r : route) (k : string) (req : request) (w : world)
    (c : call) (d : obj) :
  shape_of r = Some (body_field k) ->
  (serve r req w).2 = [c] ->
  axios_get w (url c) (params c) = Ok (VObj d) ->
  (serve r req w).1 = Ok (Response 200 (Json (obj_get d k))).
Proof. intros Hs Hc Hd. by rewrite (serve_shaped _ _ _ _ _ _ Hs Hc Hd). Qed.

Lemma field_routes_return_field_witness :
  (serve tv_images (Request "1399" VUndef)
     (upstream_answers (VObj [("id", VStr "1399"); ("posters", VArr [])]))).1
  = Ok (Response 200 (Json VUndef)).
Proof.
  apply (field_routes_return_field tv_images "backdrops" (Request "1399" VUndef)
           (upstream_answers (VObj [("id", VStr "1399"); ("posters", VArr [])]))
           (Call "https://api.themoviedb.org/3/tv/1399/images" [("api_key", VStr "k3y")])
           [("id", VStr "1399"); ("posters", VArr [])]).
  - reflexivity.
  - reflexivity.
  - reflexivity.
Defined.

(** X10. The list routes of movies, TV shows and persons (under
    [results], or under [cast] for a person's credits): for a request the
    handler lets through, it makes its upstream call, and when the body
    holds an array of raw objects there it answers 200 with their records,
    one per element and in the same order. *)
Theorem list_routes_return_records (r : route) (k : string)
    (C : value -> obj -> result obj) (rec : obj -> obj)
    (req : request) (w : world) (c : call) (d : obj) (rs : list obj) :
  shape_of r = Some (entity_list k C) ->
  (C, rec) ∈ [(Movie, movie_record); (TVShow, tvshow_record); (Person, person_record)] ->
  upstream_call r req w = Some c ->
  axios_get w (url c) (params c) = Ok (VObj d) ->
  obj_get d k = VArr (VObj <$> rs) ->
  serve r req w
  = (Ok (Response 200 (Json (VArr ((fun x => VObj (rec x)) <$> rs)))), [c]).
Proof.
  intros Hs HC Hc Hd Hk. rewrite (serve_answered _ _ _ _ _ _ Hs Hc Hd).
  cbn [shaped get mbind result_bind]. rewrite Hk. cbn [array_map].
  rewrite (map_elements_pure _ (fun x => VObj (rec x))); [done|].
  rewrite !elem_of_cons, elem_of_nil in HC.
  destruct HC as [[= -> ->]|[[= -> ->]|[[= -> ->]|[]]]]; intros x;
    auto using Movie_obj, TVShow_obj, Person_obj.
Qed.

Lemma list_routes_return_records_witness :
  serve person_movie_credits (Request "287" VUndef)
    (upstream_answers
       (VObj [("cast", VArr [VObj [("title", VStr "Heat")]; VObj [("title", VStr "Ran")]])]))
  = (Ok (Response 200 (Json (VArr [VObj (movie_record [("title", VStr "Heat")]);
                                   VObj (movie_record [("title", VStr "Ran")])]))),
     [Call "https://api.themoviedb.org/3/person/287/movie_credits"
           [("api_key", VStr "k3y")]]).
Proof.
  apply (list_routes_return_records person_movie_credits "cast" Movie movie_record
           (Request "287" VUndef) _
           (Call "https://api.themoviedb.org/3/person/287/movie_credits"
                 [("api_key", VStr "k3y")])
           [("cast", VArr [VObj [("title", VStr "Heat")]; VObj [("title", VStr "Ran")]])]
           [[("title", VStr "Heat")]; [("title", VStr "Ran")]]).
  - reflexivity.
  - apply list_elem_of_here.
  - reflexivity.
  - reflexivity.
  - reflexivity.
Defined.

(** X11. When the body upstream sent has no array where a list route
    expects one (the field is missing or is not an array, or the body is
    [null]), the route answers 500 with its failure message, although the
    upstream call succeeded. *)
Theorem list_routes_need_an_array (r : route) (k : string)
    (C : value -> obj -> result obj)
    (req : request) (w : world) (c : call) (data : value) :
  shape_of r = Some (entity_list k C) ->
  (serve r req w).2 = [c] ->
  axios_get w (url c) (params c) = Ok data ->
  (forall xs, get data k <> Ok (VArr xs)) ->
  (serve r req w).1 = Ok (Response 500 (Json (error_obj (failure_message r req)))).
Proof.
  intros Hs Hc Hd Hk. rewrite (serve_shaped _ _ _ _ _ _ Hs Hc Hd).
  rewrite (failure_response_500 _ _ _ Hs).
  cbn [shaped mbind result_bind].
  destruct (get data k) as [v|e] eqn:Hg; [|done].
  destruct v; try done. by destruct (Hk xs).
Qed.

Lemma list_routes_need_an_array_witness :
  (serve movie_popular (Request "" VUndef)
     (upstream_answers (VObj [("status_message", VStr "over quota")]))).1
  = Ok (Response 500 (Json (error_obj "Failed to fetch popular movies"))).
Proof.
  apply (list_routes_need_an_array movie_popular "results" Movie (Request "" VUndef) _
           (Call "https://api.themoviedb.org/3/movie/popular" [("api_key", VStr "k3y")])
           (VObj [("status_message", VStr "over quota")])).
  - reflexivity.
  - reflexivity.
  - reflexivity.
  - intros xs. discriminate.
Defined.

(** X12. The review routes return no partial list: if one raw review
    under [results] has no [author_details], the route answers 500 with
    its failure message, whatever the other reviews are. *)
Theorem review_routes_all_or_nothing (r : route) (req : request) (w : world)
    (c : call) (data : value) (xs : list value) (o : obj) :
  shape_of r = Some (entity_list "results" Review) ->
  (serve r req w).2 = [c] ->
  axios_get w (url c) (params c) = Ok data ->
  get data "results" = Ok (VArr xs) ->
  VObj o ∈ xs ->
  obj_get o "author_details" = VUndef ->
  (serve r req w).1 = Ok (Response 500 (Json (error_obj (failure_message r req)))).
Proof.
  intros Hs Hc Hd Hres Ho Hmiss. rewrite (serve_shaped _ _ _ _ _ _ Hs Hc Hd).
  rewrite (failure_response_500 _ _ _ Hs).
  unfold shaped, mbind, result_bind. rewrite Hres. cbn [array_map].
  destruct (map_elements (new Review) xs) as [ys|e] eqn:Hm; [|reflexivity].
  exfalso. apply map_elements_Ok in Hm.
  apply list_elem_of_lookup in Ho as [i Hi].
  destruct (Forall2_lookup_l _ _ _ _ _ Hm Hi) as (y & _ & Hy).
  unfold new, Review in Hy. simpl in Hy. by rewrite Hmiss in Hy.
Qed.

Lemma review_routes_all_or_nothing_witness :
  (serve tv_reviews (Request "1399" VUndef)
     (upstream_answers
        (VObj [("results",
                VArr [VObj [("author", VStr "ann"); ("author_details", VObj [])];
                      VObj [("author", VStr "bob")]])]))).1
  = Ok (Response 500 (Json (error_obj "Failed to fetch reviews for TV show with id 1399"))).
Proof.
  apply (review_routes_all_or_nothing tv_reviews (Request "1399" VUndef) _
           (Call "https://api.themoviedb.org/3/tv/1399/reviews" [("api_key", VStr "k3y")])
           (VObj [("results",
                   VArr [VObj [("author", VStr "ann"); ("author_details", VObj [])];
                         VObj [("author", VStr "bob")]])])
           [VObj [("author", VStr "ann"); ("author_details", VObj [])];
            VObj [("author", VStr "bob")]]
           [("author", VStr "bob")]).
  - reflexivity.
  - reflexivity.
  - reflexivity.
  - reflexivity.
  - apply list_elem_of_further, list_elem_of_here.
  - reflexivity.
Defined.

(** X13. The routes that return one entity (movie details, latest TV
    show, TV show details, person details): for a request the handler lets
    through (every request, but for the series-id check of the TV show
    details), it makes its upstream call; it answers 500 when the body is
    [null], and on any other body 200 with the record of the body's
    properties, so a body that is no object (a string, say) gives a record
    whose fields, except [mediaType], are all [undefined]. *)
Theorem entity_routes_return_record (r : route) (C : value -> obj -> result obj)
    (rec : obj -> obj) (req : request) (w : world) :
  shape_of r = Some (one_entity C) ->
  (C, rec) ∈ [(Movie, movie_record); (TVShow, tvshow_record); (Person, person_record)] ->
  (r = tv_details -> TvShowController.digits_only (path_id req) = true) ->
  exists c,
    upstream_call r req w = Some c /\
    forall data, axios_get w (url c) (params c) = Ok data ->
      (data = VUndef \/ data = VNull ->
       serve r req w
       = (Ok (Response 500 (Json (error_obj (failure_message r req)))), [c])) /\
      (data <> VUndef -> data <> VNull ->
       serve r req w = (Ok (Response 200 (Json (VObj (rec (raw_props data))))), [c])).
Proof.
  intros Hs HC Hid.
  assert (Hc : exists c, upstream_call r req w = Some c).
  { destruct r; try discriminate Hs; try (by eexists).
    cbn [upstream_call]. rewrite Hid by done. by eexists. }
  destruct Hc as [c Hc]. exists c. split; [done|]. intros data Hd.
  rewrite (serve_answered _ _ _ _ _ _ Hs Hc Hd).
  rewrite (failure_response_500 _ _ _ Hs). cbn [shaped].
  rewrite !elem_of_cons, elem_of_nil in HC.
  destruct HC as [[= -> ->]|[[= -> ->]|[[= -> ->]|[]]]]; split.
  all: try (by intros [-> | ->]).
  - intros Hu Hn. by rewrite new_Movie_value.
  - intros Hu Hn. by rewrite new_TVShow_value.
  - intros Hu Hn. by rewrite new_Person_value.
Qed.

Lemma entity_routes_return_record_witness :
  serve tv_details (Request "1399" VUndef) (upstream_answers (VStr "<html>"))
  = (Ok (Response 200 (Json (VObj (tvshow_record [])))),
     [Call "https://api.themoviedb.org/3/tv/1399" [("api_key", VStr "k3y")]]).
Proof.
  destruct (entity_routes_return_record tv_details TVShow tvshow_record
              (Request "1399" VUndef) (upstream_answers (VStr "<html>")))
    as (c & Hc & Hserve).
  - reflexivity.
  - apply list_elem_of_further, list_elem_of_here.
  - reflexivity.
  - injection Hc as <-.
    apply (proj2 (Hserve (VStr "<html>") eq_refl)); discriminate.
Defined.

(** X14. The credits routes (movie and TV) answer 200 with an object of
    two lists, [cast] and [crew], holding the Person records of the raw
    objects under [cast] and under [crew], each in its order. *)
Theorem credits_routes_return_persons (r : route) (req : request) (w : world)
    (c : call) (d : obj) (cast crew : list obj) :
  shape_of r = Some cast_and_crew ->
  (serve r req w).2 = [c] ->
  axios_get w (url c) (params c) = Ok (VObj d) ->
  obj_get d "cast" = VArr (VObj <$> cast) ->
  obj_get d "crew" = VArr (VObj <$> crew) ->
  (serve r req w).1
  = Ok (Response 200 (Json (VObj
         [("cast", VArr ((fun x => VObj (person_record x)) <$> cast));
          ("crew", VArr ((fun x => VObj (person_record x)) <$> crew))]))).
Proof.
  intros Hs Hc Hd Hcast Hcrew. rewrite (serve_shaped _ _ _ _ _ _ Hs Hc Hd).
  cbn [shaped get mbind result_bind]. rewrite Hcast. cbn [array_map].
  rewrite (map_elements_pure _ (fun x => VObj (person_record x))) by apply Person_obj.
  cbn [fmap result_fmap]. rewrite Hcrew. cbn [array_map].
  by rewrite (map_elements_pure _ (fun x => VObj (person_record x))) by apply Person_obj.
Qed.

Lemma credits_routes_return_persons_witness :
  (serve movie_credits (Request "550" VUndef)
     (upstream_answers
        (VObj [("cast", VArr [VObj [("name", VStr "Brad")]]); ("crew", VArr [])]))).1
  = Ok (Response 200 (Json (VObj
         [("cast", VArr [VObj (person_record [("name", VStr "Brad")])]);
          ("crew", VArr [])]))).
Proof.
  apply (credits_routes_return_persons movie_credits (Request "550" VUndef) _
           (Call "https://api.themoviedb.org/3/movie/550/credits" [("api_key", VStr "k3y")])
           [("cast", VArr [VObj [("name", VStr "Brad")]]); ("crew", VArr [])]
           [[("name", VStr "Brad")]] []).
  - reflexivity.
  - reflexivity.
  - reflexivity.
  - reflexivity.
  - reflexivity.
Defined.

(** ** Which requests reach upstream, and where they go *)

Lemma digits_only_spec (s : string) :
  TvShowController.digits_only s = true
  <-> s <> "" /\ forall ch, ch ∈ chars s -> 48 <= nat_of_ascii ch <= 57.
Proof.
  unfold TvShowController.digits_only.
  assert (Hall : TvShowController.all_digits s = true
                 <-> forall ch, ch ∈ chars s -> 48 <= nat_of_ascii ch <= 57).
  { induction s as [|a s IH]; simpl.
    - split; [|done]. intros _ ch Hch. by apply elem_of_nil in Hch.
    - rewrite andb_true_iff, IH. unfold TvShowController.digit.
      rewrite andb_true_iff, !Nat.leb_le. split.
      + intros [Ha Hs] ch Hch. apply elem_of_cons in Hch as [->|Hch]; auto.
      + intros Hs. split; [apply Hs, list_elem_of_here|].
        intros ch Hch. by apply Hs, list_elem_of_further. }
  rewrite andb_true_iff, negb_true_iff, Hall.
  destruct (String.eqb_spec s "") as [->|Hne].
  - split; [by intros [[=] _]|by intros [Hn _]].
  - split; by intros [_ H].
Qed.

(** X15. Every route under [/:series_id] is gated by the id: an id that
    is not a non-empty string of digits is answered with status 400 and no
    upstream call; with such an id the handler makes exactly one call, to
    the route's endpoint under [/tv/<id>], with the API key as only
    parameter. *)
Theorem series_id_gate (r : route) (req : request) (w : world) :
  by_series_id r = true ->
  (TvShowController.digits_only (path_id req) = false ->
   serve r req w
   = (Ok (Response 400 (Json (error_obj "Invalid series_id format. It must be a number."))),
      [])) /\
  (TvShowController.digits_only (path_id req) = true ->
   (serve r req w).2
   = [Call (tmdbBaseUrl w +:+ series_endpoint r (path_id req))
           [("api_key", tmdbApiKey w)]]).
Proof.
  destruct r; try discriminate; intros _; split; intros Hd; run_handler;
    rewrite Hd; cbn [negb]; repeat case_match; simplify_eq; reflexivity.
Qed.

Lemma series_id_gate_witness :
  serve tv_credits (Request "13-99" VUndef) (upstream_answers VNull)
  = (Ok (Response 400 (Json (error_obj "Invalid series_id format. It must be a number."))),
     []).
Proof.
  apply (series_id_gate tv_credits (Request "13-99" VUndef) (upstream_answers VNull));
    reflexivity.
Defined.

(** X16. The routes [/:movie_id/<what>] of the movie controller do not
    look at the id: whatever [movie_id] is, the handler makes exactly one
    upstream call, to [/movie/<movie_id>/<what>]. *)
Theorem movie_sub_routes_forward_any_id (r : route) (what : string)
    (req : request) (w : world) :
  movie_sub_resource r = Some what ->
  (serve r req w).2
  = [Call (tmdbBaseUrl w +:+ "/movie/" +:+ path_id req +:+ what)
          [("api_key", tmdbApiKey w)]].
Proof.
  destruct r; intros [= <-]; run_handler; repeat case_match; simplify_eq; reflexivity.
Qed.

Lemma movie_sub_routes_forward_any_id_witness :
  (serve movie_videos (Request "not-a-number" VUndef) (upstream_down "404")).2
  = [Call "https://api.themoviedb.org/3/movie/not-a-number/videos"
          [("api_key", VStr "k3y")]].
Proof.
  apply (movie_sub_routes_forward_any_id movie_videos "/videos"
           (Request "not-a-number" VUndef) (upstream_down "404")).
  reflexivity.
Defined.

(** X17. The movie search calls upstream exactly when [query] is truthy,
    once, at [/search/movie], and hands the query over unchanged as the
    parameter [query] after the API key. *)
Theorem movie_search_forwards_query (req : request) (w : world) :
  (serve movie_search req w).2
  = if truthy (query req)
    then [Call (tmdbBaseUrl w +:+ "/search/movie")
               [("api_key", tmdbApiKey w); ("query", query req)]]
    else [].
Proof.
  run_handler. destruct (truthy (query req)); cbn [negb];
    repeat case_match; simplify_eq; reflexivity.
Qed.

(** X18. The TV search puts the query into the path instead: with a
    truthy [query] that converts to a string which [encodeURIComponent]
    accepts, the one upstream call goes to [/search/tv?query=<encoded>]
    with the API key as only parameter; when the conversion to a string
    throws (an object with an own [toString]) or [encodeURIComponent]
    throws, the answer is 500 and upstream is not called. *)
Theorem tv_search_encodes_query (req : request) (w : world) :
  truthy (query req) = true ->
  (forall text enc,
     to_string w (query req) = Ok text -> encodeURIComponent w text = Ok enc ->
     (serve tv_search req w).2
     = [Call (tmdbBaseUrl w +:+ "/search/tv?query=" +:+ enc)
             [("api_key", tmdbApiKey w)]]) /\
  (forall e, to_string w (query req) = Throw e ->
     serve tv_search req w
     = (Ok (Response 500 (Json (error_obj "Failed to search TV shows"))), [])) /\
  (forall text e,
     to_string w (query req) = Ok text -> encodeURIComponent w text = Throw e ->
     serve tv_search req w
     = (Ok (Response 500 (Json (error_obj "Failed to search TV shows"))), [])).
Proof.
  intros Hq. split_and!.
  - intros text enc Ht He. rewrite serve_calls. cbn [upstream_call].
    by rewrite Hq, Ht, He.
  - intros e Ht. run_handler. rewrite Hq. cbn [negb]. by rewrite Ht.
  - intros text e Ht He. run_handler. rewrite Hq. cbn [negb]. rewrite Ht.
    by rewrite He.
Qed.

Lemma tv_search_encodes_query_witness :
  (serve tv_search (Request "" (VArr [VStr "dark"; VStr "matter"]))
     (upstream_answers VNull)).2
  = [Call "https://api.themoviedb.org/3/search/tv?query=dark%2Cmatter"
          [("api_key", VStr "k3y")]].
Proof.
  apply (proj1 (tv_search_encodes_query (Request "" (VArr [VStr "dark"; VStr "matter"]))
                  (upstream_answers VNull) eq_refl) "dark,matter" "dark%2Cmatter").
  - reflexivity.
  - reflexivity.
Defined.

(** A query object with an own [toString], as [?query[toString]=x] gives,
    cannot be converted: both searches that build the path from the query
    answer 500 and do not call upstream. *)
Example query_with_own_toString :
  serve tv_search (Request "" (VObj [("toString", VStr "x")])) (upstream_answers VNull)
  = (Ok (Response 500 (Json (error_obj "Failed to search TV shows"))), []) /\
  serve person_search (Request "" (VObj [("toString", VStr "x")])) (upstream_answers VNull)
  = (Ok (Response 500 (Json (error_obj "Failed to perform search"))), []).
Proof. split; reflexivity. Qed.

(** X19. The person search has no query guard: whenever [query] converts
    to a string, which it does when it is missing (the text
    ["undefined"]) and when it is any string, the empty one included, the
    handler makes exactly one upstream call, with that text written
    unencoded into the path; when the conversion throws (an object with an
    own [toString]), it answers 500 and does not call upstream. *)
Theorem person_search_is_unguarded (req : request) (w : world) :
  (forall text, to_string w (query req) = Ok text ->
     (serve person_search req w).2
     = [Call (tmdbBaseUrl w +:+ "/search/person?query=" +:+ text)
             [("api_key", tmdbApiKey w)]]) /\
  (forall e, to_string w (query req) = Throw e ->
     serve person_search req w
     = (Ok (Response 500 (Json (error_obj "Failed to perform search"))), [])) /\
  (query req = VUndef -> to_string w (query req) = Ok "undefined") /\
  (forall q, query req = VStr q -> to_string w (query req) = Ok q).
Proof.
  split_and!.
  - intros text Ht. by rewrite person_search_always_calls, Ht.
  - intros e Ht. run_handler. by rewrite Ht.
  - by intros ->.
  - by intros q ->.
Qed.

Lemma person_search_is_unguarded_witness :
  (serve person_search (Request "" (VStr "")) (upstream_down "socket hang up")).2
  = [Call "https://api.themoviedb.org/3/search/person?query=" [("api_key", VStr "k3y")]].
Proof.
  apply (proj1 (person_search_is_unguarded (Request "" (VStr ""))
                  (upstream_down "socket hang up")) "").
  reflexivity.
Defined.

(** X20. [/auth/validate] asks upstream for a new token, once, and
    answers by the outcome alone: 200 with [{ message: 'API Key is valid' }]
    when the call returns, whatever the body, and 401 with
    [{ error: 'Invalid API Key' }] when it throws, whatever the error. *)
Theorem auth_validate_is_binary (req : request) (w : world) :
  serve tmdb_auth_validate req w
  = (Ok (match axios_get w (tmdbBaseUrl w +:+ "/authentication/token/new")
                 [("api_key", tmdbApiKey w)] with
         | Ok _ => Response 200 (Json (message_obj "API Key is valid"))
         | Throw _ => Response 401 (Json (error_obj "Invalid API Key"))
         end),
     [Call (tmdbBaseUrl w +:+ "/authentication/token/new") [("api_key", tmdbApiKey w)]]).
Proof. run_handler. by destruct (axios_get w _ _). Qed.

Lemma append_assoc (a b c : string) : (a +:+ b) +:+ c = a +:+ (b +:+ c).
Proof.
  induction a as [|ch a IH]; [reflexivity|].
  change (String ch ((a +:+ b) +:+ c) = String ch (a +:+ (b +:+ c))). by f_equal.
Qed.

(** X21. The [/validate] route of the entry script calls axios itself, on
    the base URL as configured: when that ends with a slash the request
    goes to [<base without it>//configuration], with two slashes, where
    the helper would have dropped one.  It answers in plain text, 200 when
    the call returns and 500 when it throws. *)
Theorem app_validate_uses_raw_base (req : request) (w : world) :
  serve app_validate req w
  = (Ok (match axios_get w (TMDB_BASE_URL w +:+ "/configuration")
                 [("api_key", env (TMDB_API_KEY w))] with
         | Ok _ => Response 200 (Text "API key is valid.")
         | Throw _ =>
             Response 500 (Text "API key is invalid or TMDB service is unavailable.")
         end),
     [Call (TMDB_BASE_URL w +:+ "/configuration") [("api_key", env (TMDB_API_KEY w))]]) /\
  (endsWith_slash (TMDB_BASE_URL w) = true ->
   TMDB_BASE_URL w +:+ "/configuration" = tmdbBaseUrl w +:+ "//configuration").
Proof.
  split.
  - run_handler. by destruct (axios_get w _ _).
  - intros Hs. unfold tmdbBaseUrl. rewrite Hs.
    rewrite (endsWith_slash_slice _ Hs) at 1. by rewrite append_assoc.
Qed.

Lemma app_validate_uses_raw_base_witness :
  (serve app_validate (Request "" VUndef) (upstream_down "timeout")).2
  = [Call "https://api.themoviedb.org/3//configuration" [("api_key", VStr "k3y")]].
Proof.
  exact (f_equal snd (proj1 (app_validate_uses_raw_base (Request "" VUndef)
                               (upstream_down "timeout")))).
Defined.
